(** * HumanStress-Detection: the keyboard and mouse trackers

    A shallow embedding of the browser front end of the stress detector:
    [frontend/js/KeyboardTracker.js], [frontend/js/mouseTracker.js], the point
    buffer of [frontend/js/visualization.js] and the monitoring life cycle of
    the application object ([StressDetectionApp]).

    Conventions of the embedding.
    - A JavaScript Number is read in two ways. For orders, bounds, guards and
      what an operation leaves alone it is a real number ([R]): the
      arithmetic of the trackers is read exactly, without the rounding of
      binary64. Where the value a function returns is at stake the function
      is embedded once more in binary64 (the primitive floats, name ending in
      [64]), every operation rounding as the code rounds: the typing speed
      is. There is no binary64 [Math.acos] to compute with, so the
      randomness stays with the reals.
      Counters that the code only ever increments by one are integers ([Z]),
      injected with [IZR] where the code divides them.
    - A [Date] is its time value, an integer number of milliseconds ([Z]);
      [toISOString] followed by [new Date(...)] is the identity on it, and the
      difference of two dates is the difference of their time values.
    - What a handler reads from its environment ([new Date()], [Math.random()],
      [Date.now()], the bounding rectangle of a canvas, the state of a check
      box) is an argument of the handler.
    - Drawing and logging change no state and are left out. The WebSocket
      is present as far as a [send] that throws cuts a listener short. *)

From Stdlib Require Import Floats Uint63.
From Stdlib Require Import String.
From Stdlib Require Import Reals ZArith List Bool Lia Lra Zfloor.
Import ListNotations.
Open Scope R_scope.

(** ** JavaScript numbers *)

Module Js.

  (** [a === b] on numbers. *)
Definition strict_eq (a b : R) : bool :=
  if Req_dec_T a b then true else false.

  (** [a < b] on numbers. *)
Definition lt (a b : R) : bool :=
  if Rlt_dec a b then true else false.

  (** [a > b] on numbers. *)
Definition gt (a b : R) : bool := lt b a.

  (** Truthiness of a number: every number but zero. *)
Definition truthy (a : R) : bool := negb (strict_eq a 0).

  (** [Math.round]: the nearest integer, a tie going to the larger one. *)
Definition Math_round (x : R) : R := IZR (Zfloor (x + / 2)).

  (** [Math.sqrt], [Math.acos], [Math.pow], [Math.min] and [Math.max]. *)
Definition Math_sqrt (x : R) : R := sqrt x.
Definition Math_acos (x : R) : R := acos x.
Definition Math_pow (x : R) (n : nat) : R := x ^ n.
Definition Math_min (a b : R) : R := Rmin a b.
Definition Math_max (a b : R) : R := Rmax a b.

  (** [arr.reduce(f, init)]: a left fold. *)
Definition reduce {A B : Type} (f : B -> A -> B) (init : B) (arr : list A) : B :=
  fold_left f arr init.

  (** [arr.length] as a number. *)
Definition length_num {A : Type} (arr : list A) : R := INR (length arr).

  (** *** The same in binary64 *)

  (** The Number of an integer of absolute value below 2^63, as every time
      value of a [Date] and every length is: the nearest binary64 number,
      the integer itself below 2^53. *)
Definition Number_of_Z (z : Z) : float :=
  match z with
  | Z0 => 0%float
  | Zpos _ => PrimFloat.of_uint63 (Uint63.of_Z z)
  | Zneg _ => (- PrimFloat.of_uint63 (Uint63.of_Z (- z)))%float
  end.

  (** [arr.length] as a binary64 number. *)
Definition length_num64 {A : Type} (arr : list A) : float :=
  Number_of_Z (Z.of_nat (length arr)).

  (** [a === b] on binary64 numbers: the equality of IEEE 754 (a NaN equals
      nothing, the two zeros are equal). *)
Definition strict_eq64 (a b : float) : bool := PrimFloat.eqb a b.

  (** [Math.round] on binary64: a number that is not finite or is integral is
      returned as it is; otherwise the result is the integer
      floor(x + 1/2), computed exactly on the mantissa [m] and the exponent
      [e] of x = (+/-) m * 2^e, and a zero result takes the sign of x. *)
Definition Math_round64 (x : float) : float :=
  match Prim2SF x with
  | S754_finite negative m e =>
      if (0 <=? e)%Z then x
      else
        let twice := (2 * (if negative then Z.neg m else Z.pos m) + 2 ^ (- e))%Z in
        let n := (twice / 2 ^ (- e + 1))%Z in
        if (n =? 0)%Z then (if negative then PrimFloat.neg_zero else PrimFloat.zero)
        else Number_of_Z n
  | _ => x
  end.

End Js.

(** ** KeyboardTracker.js *)

Module KeyboardTracker.

Inductive EventType : Type := keydown | keyup.

Definition EventType_eqb (a b : EventType) : bool :=
  match a, b with
  | keydown, keydown | keyup, keyup => true
  | _, _ => false
  end.

  (** The object pushed on [keyEvents]; [pressure] is present on key-down
      events only. *)
Record KeyEvent : Type := mkKeyEvent {
  key : string;
  code : string;
  timestamp : Z;
  eventType : EventType;
  pressure : option R
}.

Record t : Type := mk {
  keyEvents : list KeyEvent;
  sessionStartTime : option Z;
  isTracking : bool;
  lastKeyPressTime : option Z;
  backspaceCount : Z;
  totalKeyPresses : Z
}.

  (** [constructor()]. *)
Definition constructor : t :=
  {| keyEvents := [];
     sessionStartTime := None;
     isTracking := false;
     lastKeyPressTime := None;
     backspaceCount := 0;
     totalKeyPresses := 0 |}.

  (** The [keydown] listener; [now] is [new Date()]. *)
Definition on_keydown (event_key event_code : string) (now : Z) (s : t) : t :=
  if negb (isTracking s) then s
  else
    let keyData :=
      {| key := event_key; code := event_code; timestamp := now;
         eventType := keydown; pressure := Some 1 |} in
    {| keyEvents := keyEvents s ++ [keyData];
       sessionStartTime := sessionStartTime s;
       isTracking := isTracking s;
       lastKeyPressTime := lastKeyPressTime s;
       backspaceCount :=
         if (String.eqb event_key "Backspace" || String.eqb event_key "Delete")%bool
         then (backspaceCount s + 1)%Z
         else backspaceCount s;
       totalKeyPresses := (totalKeyPresses s + 1)%Z |}.

  (** The [keyup] listener. *)
Definition on_keyup (event_key event_code : string) (now : Z) (s : t) : t :=
  if negb (isTracking s) then s
  else
    let keyData :=
      {| key := event_key; code := event_code; timestamp := now;
         eventType := keyup; pressure := None |} in
    {| keyEvents := keyEvents s ++ [keyData];
       sessionStartTime := sessionStartTime s;
       isTracking := isTracking s;
       lastKeyPressTime := lastKeyPressTime s;
       backspaceCount := backspaceCount s;
       totalKeyPresses := totalKeyPresses s |}.

  (** [startTracking()]; [now] is [new Date()]. *)
Definition startTracking (now : Z) (s : t) : t :=
  {| keyEvents := [];
     sessionStartTime := Some now;
     isTracking := true;
     lastKeyPressTime := lastKeyPressTime s;
     backspaceCount := 0;
     totalKeyPresses := 0 |}.

  (** [stopTracking()]. *)
Definition stopTracking (s : t) : t :=
  {| keyEvents := keyEvents s;
     sessionStartTime := sessionStartTime s;
     isTracking := false;
     lastKeyPressTime := lastKeyPressTime s;
     backspaceCount := backspaceCount s;
     totalKeyPresses := totalKeyPresses s |}.

  (** [reset()]. *)
Definition reset (s : t) : t :=
  {| keyEvents := [];
     sessionStartTime := sessionStartTime s;
     isTracking := isTracking s;
     lastKeyPressTime := None;
     backspaceCount := 0;
     totalKeyPresses := 0 |}.

  (** [this.keyEvents.filter(e => e.eventType === 'keydown')]. *)
Definition keyDownEvents (s : t) : list KeyEvent :=
  filter (fun e => EventType_eqb (eventType e) keydown) (keyEvents s).

  (** [new Date(arr[i].timestamp)]; the index is in range wherever the code
      evaluates it, the default is never read. *)
Definition date_at (arr : list KeyEvent) (i : nat) : Z :=
  nth i (map timestamp arr) 0%Z.

  (** [calculateTypingSpeed()], over the reals: the reading for orders and
      bounds. The value the code returns is that of
      [calculateTypingSpeed64] below. *)
Definition calculateTypingSpeed (s : t) : R :=
  if (length (keyEvents s) <? 2)%nat then 0
  else
    let keyDownEvents := keyDownEvents s in
    if (length keyDownEvents <? 2)%nat then 0
    else
      let firstEvent := date_at keyDownEvents 0 in
      let lastEvent := date_at keyDownEvents (length keyDownEvents - 1) in
      let timeDiff := IZR (lastEvent - firstEvent) / 1000 in
      if Js.strict_eq timeDiff 0 then 0
      else
        let charsPerMinute := (Js.length_num keyDownEvents / timeDiff) * 60 in
        let wpm := charsPerMinute / 5 in
        Js.Math_round wpm.

  (** [calculateTypingSpeed()] once more, every operation in binary64 as
      the code performs it. The subtraction of the two dates is the
      subtraction of their time values. *)
Definition calculateTypingSpeed64 (s : t) : float :=
  if (length (keyEvents s) <? 2)%nat then 0%float
  else
    let keyDownEvents := keyDownEvents s in
    if (length keyDownEvents <? 2)%nat then 0%float
    else
      let firstEvent := Js.Number_of_Z (date_at keyDownEvents 0) in
      let lastEvent :=
        Js.Number_of_Z (date_at keyDownEvents (length keyDownEvents - 1)) in
      let timeDiff := ((lastEvent - firstEvent) / 1000)%float in
      if Js.strict_eq64 timeDiff 0%float then 0%float
      else
        let charsPerMinute := ((Js.length_num64 keyDownEvents / timeDiff) * 60)%float in
        let wpm := (charsPerMinute / 5)%float in
        Js.Math_round64 wpm.

  (** [this.backspaceCount / Math.max(this.totalKeyPresses, 1)], the
      [backspaceRatio] of [getStats()]. *)
Definition backspaceRatio (s : t) : R :=
  IZR (backspaceCount s) / Js.Math_max (IZR (totalKeyPresses s)) 1.

  (** [calculateKeyPressVariance()]. *)
Definition calculateKeyPressVariance (s : t) : R :=
  if (length (keyEvents s) <? 2)%nat then 0
  else
    let backspaceRatio := backspaceRatio s in
    backspaceRatio * 0.3.

  (** What the document delivers to the keyboard listeners. *)
Inductive DomEvent : Type :=
| KeyDown (event_key event_code : string) (now : Z)
| KeyUp (event_key event_code : string) (now : Z).

Definition handle (s : t) (e : DomEvent) : t :=
  match e with
  | KeyDown k c now => on_keydown k c now s
  | KeyUp k c now => on_keyup k c now s
  end.

Definition run (s : t) (es : list DomEvent) : t := fold_left handle es s.

End KeyboardTracker.

(** ** mouseTracker.js *)

Module MouseTracker.

Inductive EventType : Type := move | click | scroll.

Definition EventType_eqb (a b : EventType) : bool :=
  match a, b with
  | move, move | click, click | scroll, scroll => true
  | _, _ => false
  end.

  (** The objects pushed on [mouseEvents]: [movementData], [clickData] and
      [wheelData]. The ['release'] object of the [mouseup] listener is sent to
      the socket and never pushed. *)
Inductive MouseEvent : Type :=
| MoveEvent (x y : R) (timestamp : Z) (movementSpeed : R)
| ClickEvent (button : Z) (x y : R) (timestamp : Z) (pressure : R)
| ScrollEvent (deltaX deltaY : R) (timestamp : Z).

Definition eventType (e : MouseEvent) : EventType :=
  match e with
  | MoveEvent _ _ _ _ => move
  | ClickEvent _ _ _ _ _ => click
  | ScrollEvent _ _ _ => scroll
  end.

  (** [e.x] and [e.y]; the code reads them on move events only, a scroll
      event has neither. *)
Definition ev_x (e : MouseEvent) : R :=
  match e with
  | MoveEvent x _ _ _ => x
  | ClickEvent _ x _ _ _ => x
  | ScrollEvent _ _ _ => 0
  end.

Definition ev_y (e : MouseEvent) : R :=
  match e with
  | MoveEvent _ y _ _ => y
  | ClickEvent _ _ y _ _ => y
  | ScrollEvent _ _ _ => 0
  end.

  (** [e.timestamp]. *)
Definition ev_timestamp (e : MouseEvent) : Z :=
  match e with
  | MoveEvent _ _ ts _ => ts
  | ClickEvent _ _ _ ts _ => ts
  | ScrollEvent _ _ ts => ts
  end.

  (** [e.pressure], read on click events only. *)
Definition ev_pressure (e : MouseEvent) : R :=
  match e with
  | ClickEvent _ _ _ _ p => p
  | _ => 0
  end.

Record Point : Type := mkPoint { x : R; y : R }.

Record t : Type := mk {
  mouseEvents : list MouseEvent;
  isTracking : bool;
  lastMousePosition : Point;
  lastMouseMoveTime : option Z;
  clickCount : Z;
  totalDistance : R;
  simulatedPressure : R;
  pressureVariation : R
}.

  (** [constructor()]. *)
Definition constructor : t :=
  {| mouseEvents := [];
     isTracking := false;
     lastMousePosition := {| x := 0; y := 0 |};
     lastMouseMoveTime := None;
     clickCount := 0;
     totalDistance := 0;
     simulatedPressure := 1.0;
     pressureVariation := 0 |}.

  (** [calculateMovementSpeed(event, currentTime)]. *)
Definition calculateMovementSpeed (s : t) (clientX clientY : R) (currentTime : Z) : R :=
  match lastMouseMoveTime s with
  | None => 0
  | Some lastTime =>
      let timeDiff := IZR (currentTime - lastTime) / 1000 in
      if Js.strict_eq timeDiff 0 then 0
      else
        let dx := clientX - x (lastMousePosition s) in
        let dy := clientY - y (lastMousePosition s) in
        let distance := Js.Math_sqrt (dx * dx + dy * dy) in
        distance / timeDiff
  end.

  (** The [mousemove] listener; [now] is [new Date()]. *)
Definition on_mousemove (clientX clientY : R) (now : Z) (s : t) : t :=
  if negb (isTracking s) then s
  else
    let movementData :=
      MoveEvent clientX clientY now (calculateMovementSpeed s clientX clientY now) in
    {| mouseEvents := mouseEvents s ++ [movementData];
       isTracking := isTracking s;
       lastMousePosition := {| x := clientX; y := clientY |};
       lastMouseMoveTime := Some now;
       clickCount := clickCount s;
       totalDistance :=
         if (negb (Js.strict_eq (x (lastMousePosition s)) 0)
             || negb (Js.strict_eq (y (lastMousePosition s)) 0))%bool
         then
           let dx := clientX - x (lastMousePosition s) in
           let dy := clientY - y (lastMousePosition s) in
           let distance := Js.Math_sqrt (dx * dx + dy * dy) in
           totalDistance s + distance
         else totalDistance s;
       simulatedPressure := simulatedPressure s;
       pressureVariation := pressureVariation s |}.

  (** The [mousedown] listener; [currentStress] is
      [window.stressApp?.currentStressLevel || 0] and [random] is
      [Math.random()]. *)
Definition on_mousedown (button : Z) (clientX clientY : R) (now : Z)
    (currentStress random : R) (s : t) : t :=
  if negb (isTracking s) then s
  else
    let pressureVariation' := 0.1 + (currentStress / 4) * 0.3 in
    let simulatedPressure' := 0.8 + random * pressureVariation' in
    let clickData := ClickEvent button clientX clientY now simulatedPressure' in
    {| mouseEvents := mouseEvents s ++ [clickData];
       isTracking := isTracking s;
       lastMousePosition := lastMousePosition s;
       lastMouseMoveTime := lastMouseMoveTime s;
       clickCount := (clickCount s + 1)%Z;
       totalDistance := totalDistance s;
       simulatedPressure := simulatedPressure';
       pressureVariation := pressureVariation' |}.

  (** The [mouseup] listener: the release object goes to the socket only. *)
Definition on_mouseup (button : Z) (clientX clientY : R) (now : Z) (s : t) : t := s.

  (** The [wheel] listener. *)
Definition on_wheel (deltaX deltaY : R) (now : Z) (s : t) : t :=
  if negb (isTracking s) then s
  else
    let wheelData := ScrollEvent deltaX deltaY now in
    {| mouseEvents := mouseEvents s ++ [wheelData];
       isTracking := isTracking s;
       lastMousePosition := lastMousePosition s;
       lastMouseMoveTime := lastMouseMoveTime s;
       clickCount := clickCount s;
       totalDistance := totalDistance s;
       simulatedPressure := simulatedPressure s;
       pressureVariation := pressureVariation s |}.

  (** [this.mouseEvents.filter(e => e.eventType === 'move')]. *)
Definition moveEvents (s : t) : list MouseEvent :=
  filter (fun e => EventType_eqb (eventType e) move) (mouseEvents s).

  (** [arr[i]] on a list of move events; the index is in range wherever the
      loop below evaluates it. *)
Definition at_index (arr : list MouseEvent) (i : nat) : MouseEvent :=
  nth i arr (MoveEvent 0 0 0 0).

  (** One turn of the loop of [calculateMouseRandomness], at index [i]: the
      angle between the two displacements ending at [moveEvents[i]] is pushed
      when both have a positive magnitude. *)
Definition angle_loop_body (moveEvents : list MouseEvent) (angleChanges : list R)
    (i : nat) : list R :=
  let dx1 := ev_x (at_index moveEvents (i - 1)) - ev_x (at_index moveEvents (i - 2)) in
  let dy1 := ev_y (at_index moveEvents (i - 1)) - ev_y (at_index moveEvents (i - 2)) in
  let dx2 := ev_x (at_index moveEvents i) - ev_x (at_index moveEvents (i - 1)) in
  let dy2 := ev_y (at_index moveEvents i) - ev_y (at_index moveEvents (i - 1)) in
  let dot := dx1 * dx2 + dy1 * dy2 in
  let mag1 := Js.Math_sqrt (dx1 * dx1 + dy1 * dy1) in
  let mag2 := Js.Math_sqrt (dx2 * dx2 + dy2 * dy2) in
  if (Js.gt mag1 0 && Js.gt mag2 0)%bool then
    let cosAngle := dot / (mag1 * mag2) in
    let clampedCos := Js.Math_max (-1) (Js.Math_min 1 cosAngle) in
    let angle := Js.Math_acos clampedCos in
    angleChanges ++ [angle]
  else angleChanges.

  (** [for (let i = 2; i < moveEvents.length; i++) ...], from
      [angleChanges = []]. *)
Definition angleChanges (moveEvents : list MouseEvent) : list R :=
  fold_left (angle_loop_body moveEvents) (seq 2 (length moveEvents - 2)) [].

  (** [calculateMouseRandomness()]. *)
Definition calculateMouseRandomness (s : t) : R :=
  if (length (mouseEvents s) <? 3)%nat then 0.1
  else
    let moveEvents := moveEvents s in
    if (length moveEvents <? 3)%nat then 0.1
    else
      let angleChanges := angleChanges moveEvents in
      if (length angleChanges =? 0)%nat then 0.1
      else
        let mean :=
          Js.reduce (fun a b => a + b) 0 angleChanges / Js.length_num angleChanges in
        let variance :=
          Js.reduce (fun a b => a + Js.Math_pow (b - mean) 2) 0 angleChanges
          / Js.length_num angleChanges in
        Js.Math_min (variance * 10) 1.

  (** [this.mouseEvents.filter(e => e.eventType === 'click')]. *)
Definition clickEvents (s : t) : list MouseEvent :=
  filter (fun e => EventType_eqb (eventType e) click) (mouseEvents s).

  (** [calculateClickFrequency()]. *)
Definition calculateClickFrequency (s : t) : R :=
  if (length (mouseEvents s) <? 2)%nat then 0
  else
    let clickEvents := clickEvents s in
    if (length clickEvents <? 2)%nat then 0
    else
      let firstClick := nth 0 (map ev_timestamp clickEvents) 0%Z in
      let lastClick := nth (length clickEvents - 1) (map ev_timestamp clickEvents) 0%Z in
      let timeDiff := IZR (lastClick - firstClick) / 1000 in
      if Js.strict_eq timeDiff 0 then 0
      else Js.length_num clickEvents / timeDiff.

  (** [this.mouseEvents.filter(e => e.eventType === 'click' && e.pressure)]. *)
Definition pressureClickEvents (s : t) : list MouseEvent :=
  filter (fun e => (EventType_eqb (eventType e) click && Js.truthy (ev_pressure e))%bool)
         (mouseEvents s).

  (** [calculateAveragePressure()]. *)
Definition calculateAveragePressure (s : t) : R :=
  let clickEvents := pressureClickEvents s in
  if (length clickEvents =? 0)%nat then 1.0
  else
    let totalPressure := Js.reduce (fun sum event => sum + ev_pressure event) 0 clickEvents in
    totalPressure / Js.length_num clickEvents.

  (** [startTracking()]. *)
Definition startTracking (s : t) : t :=
  {| mouseEvents := [];
     isTracking := true;
     lastMousePosition := lastMousePosition s;
     lastMouseMoveTime := lastMouseMoveTime s;
     clickCount := 0;
     totalDistance := 0;
     simulatedPressure := simulatedPressure s;
     pressureVariation := pressureVariation s |}.

  (** [stopTracking()]. *)
Definition stopTracking (s : t) : t :=
  {| mouseEvents := mouseEvents s;
     isTracking := false;
     lastMousePosition := lastMousePosition s;
     lastMouseMoveTime := lastMouseMoveTime s;
     clickCount := clickCount s;
     totalDistance := totalDistance s;
     simulatedPressure := simulatedPressure s;
     pressureVariation := pressureVariation s |}.

  (** [reset()]. *)
Definition reset (s : t) : t :=
  {| mouseEvents := [];
     isTracking := isTracking s;
     lastMousePosition := {| x := 0; y := 0 |};
     lastMouseMoveTime := None;
     clickCount := 0;
     totalDistance := 0;
     simulatedPressure := simulatedPressure s;
     pressureVariation := pressureVariation s |}.

  (** What the document delivers to the mouse listeners, with what each
      listener reads from its environment. *)
Inductive DomEvent : Type :=
| MouseMove (clientX clientY : R) (now : Z)
| MouseDown (button : Z) (clientX clientY : R) (now : Z) (currentStress random : R)
| MouseUp (button : Z) (clientX clientY : R) (now : Z)
| Wheel (deltaX deltaY : R) (now : Z).

Definition handle (s : t) (e : DomEvent) : t :=
  match e with
  | MouseMove cx cy now => on_mousemove cx cy now s
  | MouseDown b cx cy now stress rnd => on_mousedown b cx cy now stress rnd s
  | MouseUp b cx cy now => on_mouseup b cx cy now s
  | Wheel dx dy now => on_wheel dx dy now s
  end.

Definition run (s : t) (es : list DomEvent) : t := fold_left handle es s.

End MouseTracker.

(** ** visualization.js: the heat-map point buffer *)

Module StressVisualization.

  (** [{ x: canvasX, y: canvasY, time: Date.now() }]. *)
Record HeatPoint : Type := mkHeatPoint { px : R; py : R; time : Z }.

  (** What [getBoundingClientRect()] returns, as far as it is read. *)
Record Rect : Type := mkRect { left : R; top : R }.

  (** [hasHeatmapCanvas] says whether [document.getElementById('mouseHeatmap')]
      found the canvas when the object was built. *)
Record t : Type := mk {
  hasHeatmapCanvas : bool;
  mousePoints : list HeatPoint;
  maxPoints : nat;
  lastHeatmapUpdate : option Z
}.

  (** [constructor()]. *)
Definition constructor (canvasFound : bool) : t :=
  {| hasHeatmapCanvas := canvasFound;
     mousePoints := [];
     maxPoints := 1000;
     lastHeatmapUpdate := None |}.

  (** [arr.shift()]: the first element leaves. *)
Definition shift {A : Type} (arr : list A) : list A := tl arr.

  (** [addMousePoint(x, y)]. [rect] is the bounding rectangle of the canvas;
      [tPoint], [tCheck] and [tUpdate] are the three readings of [Date.now()].
      With no canvas the call throws before it changes anything ([None]). *)
Definition addMousePoint (clientX clientY : R) (rect : Rect) (tPoint tCheck tUpdate : Z)
    (s : t) : option t :=
  if negb (hasHeatmapCanvas s) then None
  else
    let canvasX := clientX - left rect in
    let canvasY := clientY - top rect in
    let pushed := mousePoints s ++ [{| px := canvasX; py := canvasY; time := tPoint |}] in
    let kept := if (maxPoints s <? length pushed)%nat then shift pushed else pushed in
    let lastUpdate := match lastHeatmapUpdate s with Some u => u | None => 0%Z end in
    Some {| hasHeatmapCanvas := hasHeatmapCanvas s;
            mousePoints := kept;
            maxPoints := maxPoints s;
            lastHeatmapUpdate :=
              if (100 <? tCheck - lastUpdate)%Z then Some tUpdate
              else lastHeatmapUpdate s |}.

  (** One call of [addMousePoint] with everything it reads. *)
Record Call : Type := mkCall {
  call_x : R; call_y : R; call_rect : Rect;
  call_tPoint : Z; call_tCheck : Z; call_tUpdate : Z
}.

Definition call (s : t) (c : Call) : t :=
  match addMousePoint (call_x c) (call_y c) (call_rect c)
          (call_tPoint c) (call_tCheck c) (call_tUpdate c) s with
  | Some s' => s'
  | None => s
  end.

  (** The point a call pushes. *)
Definition point_of (c : Call) : HeatPoint :=
  {| px := call_x c - left (call_rect c);
     py := call_y c - top (call_rect c);
     time := call_tPoint c |}.

Definition run (s : t) (cs : list Call) : t := fold_left call cs s.

End StressVisualization.

(** ** visualization.js: the stress history and the fading of heat points *)

Module StressHistory.

  (** The chart's [data.labels] and [data.datasets[0].data]. *)
Record Chart : Type := mkChart { labels : list string; data : list R }.

  (** What one entry of the history list shows: the time, the level and
      [Math.round(confidence * 100)]. *)
Record Item : Type := mkItem { item_time : string; item_level : R; item_percent : R }.

  (** [historyChart] is absent when the chart canvas was not found;
      [historyList] is the list of children of the element of that id,
      absent when there is no such element. *)
Record t : Type := mk {
  historyChart : option Chart;
  historyList : option (list Item)
}.

  (** The state at construction, the list element being empty. *)
Definition constructor (chartFound listFound : bool) : t :=
  {| historyChart := if chartFound then Some {| labels := []; data := [] |} else None;
     historyList := if listFound then Some [] else None |}.

  (** [while (historyList.children.length > 5) removeChild(lastChild)]; each
      turn removes one child, so [fuel] turns suffice when [fuel] is the
      number of children. *)
Fixpoint remove_overflow (fuel : nat) (children : list Item) : list Item :=
  match fuel with
  | O => children
  | S fuel' =>
      if (5 <? length children)%nat then remove_overflow fuel' (removelast children)
      else children
  end.

  (** [addToHistoryList(time, level, confidence)]. *)
Definition addToHistoryList (time : string) (level confidence : R) (s : t) : t :=
  match historyList s with
  | None => s
  | Some children =>
      let item := {| item_time := time; item_level := level;
                     item_percent := Js.Math_round (confidence * 100) |} in
      let inserted := item :: children in
      {| historyChart := historyChart s;
         historyList := Some (remove_overflow (length inserted) inserted) |}
  end.

  (** [addStressRecord(level, confidence)]; [time] is the formatted
      [new Date()]. *)
Definition addStressRecord (time : string) (level confidence : R) (s : t) : t :=
  let charted :=
    match historyChart s with
    | None => s
    | Some chart =>
        let labels' := labels chart ++ [time] in
        let data' := data chart ++ [level] in
        {| historyChart :=
             Some (if (10 <? length labels')%nat
                   then {| labels := StressVisualization.shift labels';
                           data := StressVisualization.shift data' |}
                   else {| labels := labels'; data := data' |});
           historyList := historyList s |}
    end in
  addToHistoryList time level confidence charted.

  (** The part of [resetSession()] that touches the history:
      [historyList.innerHTML = ''] when the element exists. *)
Definition clearHistoryList (s : t) : t :=
  {| historyChart := historyChart s;
     historyList := match historyList s with Some _ => Some [] | None => None end |}.

  (** A prediction arrives, or the session is reset. *)
Inductive Command : Type :=
| Record_ (time : string) (level confidence : R)
| Reset.

Definition step (s : t) (c : Command) : t :=
  match c with
  | Record_ time level confidence => addStressRecord time level confidence s
  | Reset => clearHistoryList s
  end.

Definition run (s : t) (cs : list Command) : t := fold_left step cs s.

  (** [updateHeatmap()]: the opacity of a point of age [age] milliseconds,
      [Math.max(0, 1 - age / 5000)]. *)
Definition opacity (now : Z) (point : StressVisualization.HeatPoint) : R :=
  let age := IZR (now - StressVisualization.time point) in
  Js.Math_max 0 (1 - age / 5000).

End StressHistory.

(** ** The application object: the monitoring life cycle *)

Module StressDetectionApp.

Record t : Type := mk {
  isMonitoring : bool;
  sessionStartTime : option Z;
  currentStressLevel : R;
  stressConfidence : R;
  keyboardTracker : KeyboardTracker.t;
  mouseTracker : MouseTracker.t;
  visualization : StressVisualization.t;
  history : StressHistory.t
}.

  (** [constructor()]. [visualization] is the heat-map part of the
      [StressVisualization] object, [history] its history chart together with
      the history list of the page; the three flags say which of the heat-map
      canvas, the chart canvas and the list element the page has. *)
Definition constructor (canvasFound chartFound listFound : bool) : t :=
  {| isMonitoring := false;
     sessionStartTime := None;
     currentStressLevel := 0;
     stressConfidence := 0;
     keyboardTracker := KeyboardTracker.constructor;
     mouseTracker := MouseTracker.constructor;
     visualization := StressVisualization.constructor canvasFound;
     history := StressHistory.constructor chartFound listFound |}.

Definition with_trackers (kt : KeyboardTracker.t) (mt : MouseTracker.t) (app : t) : t :=
  {| isMonitoring := isMonitoring app;
     sessionStartTime := sessionStartTime app;
     currentStressLevel := currentStressLevel app;
     stressConfidence := stressConfidence app;
     keyboardTracker := kt;
     mouseTracker := mt;
     visualization := visualization app;
     history := history app |}.

  (** [startMonitoring()]. [now] and [nowKb] are the [new Date()] of the
      application and of the keyboard tracker; [trackKeyboard] and
      [trackMouse] are the [checked] states of the two settings boxes. *)
Definition startMonitoring (now nowKb : Z) (trackKeyboard trackMouse : bool) (app : t) : t :=
  if negb (isMonitoring app) then
    {| isMonitoring := true;
       sessionStartTime := Some now;
       currentStressLevel := currentStressLevel app;
       stressConfidence := stressConfidence app;
       keyboardTracker :=
         if trackKeyboard then KeyboardTracker.startTracking nowKb (keyboardTracker app)
         else keyboardTracker app;
       mouseTracker :=
         if trackMouse then MouseTracker.startTracking (mouseTracker app)
         else mouseTracker app;
       visualization := visualization app;
       history := history app |}
  else app.

  (** [pauseMonitoring()]. *)
Definition pauseMonitoring (app : t) : t :=
  if isMonitoring app then
    {| isMonitoring := false;
       sessionStartTime := sessionStartTime app;
       currentStressLevel := currentStressLevel app;
       stressConfidence := stressConfidence app;
       keyboardTracker := KeyboardTracker.stopTracking (keyboardTracker app);
       mouseTracker := MouseTracker.stopTracking (mouseTracker app);
       visualization := visualization app;
       history := history app |}
  else app.

  (** [resetSession()]. *)
Definition resetSession (app : t) : t :=
  {| isMonitoring := false;
     sessionStartTime := sessionStartTime app;
     currentStressLevel := currentStressLevel app;
     stressConfidence := stressConfidence app;
     keyboardTracker :=
       KeyboardTracker.stopTracking (KeyboardTracker.reset (keyboardTracker app));
     mouseTracker := MouseTracker.stopTracking (MouseTracker.reset (mouseTracker app));
     visualization := visualization app;
     history := StressHistory.clearHistoryList (history app) |}.

  (** [handleStressPrediction(data)] for a message that carries a
      [prediction]. The level and the confidence are stored first; then
      [updateStressIndicators] reads [features.typing_speed] and
      [features.mouse_randomness.toFixed], which throws when the message does
      not carry them ([featuresComplete] false), and only after it
      [this.visualization.addStressRecord] is reached. [time] is the
      formatted [new Date()] of [addStressRecord]. *)
Definition handleStressPrediction (time : string) (level_index confidence : R)
    (featuresComplete : bool) (app : t) : t :=
  {| isMonitoring := isMonitoring app;
     sessionStartTime := sessionStartTime app;
     currentStressLevel := level_index;
     stressConfidence := confidence;
     keyboardTracker := keyboardTracker app;
     mouseTracker := mouseTracker app;
     visualization := visualization app;
     history :=
       if featuresComplete
       then StressHistory.addStressRecord time level_index confidence (history app)
       else history app |}.

  (** The [change] listeners of the two settings boxes. *)
Definition on_trackKeyboard_change (checked : bool) (nowKb : Z) (app : t) : t :=
  if negb checked then
    with_trackers (KeyboardTracker.stopTracking (keyboardTracker app)) (mouseTracker app) app
  else if isMonitoring app then
    with_trackers (KeyboardTracker.startTracking nowKb (keyboardTracker app))
                  (mouseTracker app) app
  else app.

Definition on_trackMouse_change (checked : bool) (app : t) : t :=
  if negb checked then
    with_trackers (keyboardTracker app) (MouseTracker.stopTracking (mouseTracker app)) app
  else if isMonitoring app then
    with_trackers (keyboardTracker app) (MouseTracker.startTracking (mouseTracker app)) app
  else app.

  (** The [mousemove] listener of the mouse tracker as the page runs it, with
      [window.stressApp] this object: the tracker records the move, sends it
      to the socket, and then [updateVisualization] hands the point to
      [addMousePoint]. While the socket is still connecting ([connecting])
      [send] throws, and the listener ends before [updateVisualization]; the
      state of the tracker is already updated. In the other listeners
      nothing that changes the state follows the [send]. *)
Definition on_mousemove (c : StressVisualization.Call) (now : Z) (connecting : bool)
    (app : t) : t :=
  {| isMonitoring := isMonitoring app;
     sessionStartTime := sessionStartTime app;
     currentStressLevel := currentStressLevel app;
     stressConfidence := stressConfidence app;
     keyboardTracker := keyboardTracker app;
     mouseTracker :=
       MouseTracker.on_mousemove (StressVisualization.call_x c)
         (StressVisualization.call_y c) now (mouseTracker app);
     visualization :=
       if (MouseTracker.isTracking (mouseTracker app) && negb connecting)%bool
       then StressVisualization.call (visualization app) c
       else visualization app;
     history := history app |}.

  (** Everything that reaches the application. The pointer events other than
      [mousemove] are those of the tracker; a [mousedown] reads its stress
      level from the application. *)
Inductive Input : Type :=
| Key (e : KeyboardTracker.DomEvent)
| Move (c : StressVisualization.Call) (now : Z) (connecting : bool)
| Down (button : Z) (clientX clientY : R) (now : Z) (random : R)
| Up (button : Z) (clientX clientY : R) (now : Z)
| Scroll (deltaX deltaY : R) (now : Z)
| ClickStart (now nowKb : Z) (trackKeyboard trackMouse : bool)
| ClickPause
| ClickReset
| ChangeTrackKeyboard (checked : bool) (nowKb : Z)
| ChangeTrackMouse (checked : bool)
| Prediction (time : string) (level_index confidence : R) (featuresComplete : bool).

Definition step (app : t) (i : Input) : t :=
  match i with
  | Key e =>
      with_trackers (KeyboardTracker.handle (keyboardTracker app) e) (mouseTracker app) app
  | Move c now connecting => on_mousemove c now connecting app
  | Down b cx cy now rnd =>
      with_trackers (keyboardTracker app)
        (MouseTracker.on_mousedown b cx cy now (currentStressLevel app) rnd
           (mouseTracker app)) app
  | Up b cx cy now =>
      with_trackers (keyboardTracker app)
        (MouseTracker.on_mouseup b cx cy now (mouseTracker app)) app
  | Scroll dx dy now =>
      with_trackers (keyboardTracker app)
        (MouseTracker.on_wheel dx dy now (mouseTracker app)) app
  | ClickStart now nowKb tk tm => startMonitoring now nowKb tk tm app
  | ClickPause => pauseMonitoring app
  | ClickReset => resetSession app
  | ChangeTrackKeyboard checked nowKb => on_trackKeyboard_change checked nowKb app
  | ChangeTrackMouse checked => on_trackMouse_change checked app
  | Prediction time level confidence complete =>
      handleStressPrediction time level confidence complete app
  end.

Definition run (app : t) (inputs : list Input) : t := fold_left step inputs app.

End StressDetectionApp.

(** ** What the trackers display: [getStats], [updateUI], [updateProgressBars] *)

Module KeyboardTrackerUI.

  (** The object [getStats()] returns. *)
Record Stats : Type := mkStats {
  typingSpeed : R;
  keyPressVariance : R;
  backspaceCount : Z;
  totalKeyPresses : Z;
  backspaceRatio : R
}.

  (** [getStats()]. *)
Definition getStats (s : KeyboardTracker.t) : Stats :=
  {| typingSpeed := KeyboardTracker.calculateTypingSpeed s;
     keyPressVariance := KeyboardTracker.calculateKeyPressVariance s;
     backspaceCount := KeyboardTracker.backspaceCount s;
     totalKeyPresses := KeyboardTracker.totalKeyPresses s;
     backspaceRatio :=
       IZR (KeyboardTracker.backspaceCount s)
       / Js.Math_max (IZR (KeyboardTracker.totalKeyPresses s)) 1 |}.

  (** [updateUI()]: the number shown before the per cent sign of the error
      rate, [Math.round(stats.backspaceRatio * 100)]. *)
Definition errorRate (stats : Stats) : R :=
  Js.Math_round (backspaceRatio stats * 100).

  (** [updateProgressBars(stats)]: the two widths, in per cent. *)
Definition normalizedSpeed (stats : Stats) : R :=
  Js.Math_min (typingSpeed stats / 120) 1 * 100.

Definition errorBarWidth (stats : Stats) : R :=
  Js.Math_min (backspaceRatio stats * 5) 1 * 100.

End KeyboardTrackerUI.

Module MouseTrackerUI.

  (** The object [getStats()] returns. *)
Record Stats : Type := mkStats {
  mouseRandomness : R;
  clickFrequency : R;
  averagePressure : R;
  totalClicks : Z;
  totalDistance : R;
  moveCount : nat
}.

  (** [getStats()]. *)
Definition getStats (s : MouseTracker.t) : Stats :=
  {| mouseRandomness := MouseTracker.calculateMouseRandomness s;
     clickFrequency := MouseTracker.calculateClickFrequency s;
     averagePressure := MouseTracker.calculateAveragePressure s;
     totalClicks := MouseTracker.clickCount s;
     totalDistance := Js.Math_round (MouseTracker.totalDistance s);
     moveCount := length (MouseTracker.moveEvents s) |}.

  (** [updateProgressBars(stats)]: the width of the randomness bar, in per
      cent. *)
Definition mouseBarWidth (stats : Stats) : R := mouseRandomness stats * 100.

End MouseTrackerUI.

(** * Notions of the specification and sample runs *)

Section KeyboardNotions.
Import KeyboardTracker.

(** A tracker that has just been started and then received one Backspace
    key press. *)
Definition one_backspace : t :=
  run (startTracking 0 constructor) [KeyDown "Backspace" "Backspace" 1].

(** Two key presses, the second a Delete: the guard has passed. *)
Definition two_presses : t :=
  run (startTracking 0 constructor) [KeyDown "a" "KeyA" 1; KeyDown "Delete" "Delete" 2].

(** Five key presses, 200 ms apart, after the tracker was started. *)
Definition five_presses (s0 : t) (now t0 : Z) (p1 p2 p3 p4 p5 : string * string) : t :=
  run (startTracking now s0)
    [KeyDown (fst p1) (snd p1) t0;
     KeyDown (fst p2) (snd p2) (t0 + 200);
     KeyDown (fst p3) (snd p3) (t0 + 400);
     KeyDown (fst p4) (snd p4) (t0 + 600);
     KeyDown (fst p5) (snd p5) (t0 + 800)].

(** Three key presses with the first and the last time of five presses that
    start at time 0. *)
Definition three_presses : t :=
  run (startTracking 0 constructor)
    [KeyDown "a" "KeyA" 0; KeyDown "b" "KeyB" 400; KeyDown "c" "KeyC" 800].

End KeyboardNotions.

Section DistanceNotions.
Import MouseTracker.

(** The Euclidean distance between two positions. *)
Definition dist (p q : Point) : R :=
  sqrt ((x q - x p) * (x q - x p) + (y q - y p) * (y q - y p)).

(** The sum of the distances between consecutive positions. *)
Fixpoint path_length (ps : list Point) : R :=
  match ps with
  | p :: (q :: _) as rest => dist p q + path_length rest
  | _ => 0
  end.

(** The positions of the move events of a run, in order. *)
Definition move_positions (es : list DomEvent) : list Point :=
  flat_map (fun e => match e with
                     | MouseMove cx cy _ => [{| x := cx; y := cy |}]
                     | _ => []
                     end) es.

Definition is_origin (p : Point) : bool :=
  (Js.strict_eq (x p) 0 && Js.strict_eq (y p) 0)%bool.

(** The distance the listener adds, move by move: nothing when the stored
    position is the origin. *)
Fixpoint counted_length (last : Point) (ps : list Point) : R :=
  match ps with
  | [] => 0
  | p :: rest => (if is_origin last then 0 else dist last p) + counted_length p rest
  end.

(** A tracker that was reset and started. *)
Definition fresh (s : t) : t := startTracking (reset s).

(** A move to (3,4), a move onto the origin, and a move back to (3,4). *)
Definition through_origin : list DomEvent :=
  [MouseMove 3 4 0; MouseMove 0 0 10; MouseMove 3 4 20].

(** A path that ends on the origin, with a click on the way. *)
Definition ends_on_origin : list DomEvent :=
  [MouseMove 3 4 0; MouseDown 0 3 4 5 0 0.5; MouseMove 6 8 10; MouseMove 0 0 20].

End DistanceNotions.

Section RandomnessNotions.
Import MouseTracker.

(** The sum, the mean and the population variance of a list of numbers. *)
Definition sum_list (l : list R) : R := fold_right Rplus 0 l.

Definition mean (l : list R) : R := sum_list l / INR (length l).

Definition population_variance (l : list R) : R :=
  sum_list (map (fun a => (a - mean l) ^ 2) l) / INR (length l).

(** The angle between the displacement from [a] to [b] and the one from [b]
    to [c], when both displacements have a magnitude; nothing otherwise. *)
Definition angle_between (a b c : MouseEvent) : list R :=
  let dx1 := ev_x b - ev_x a in
  let dy1 := ev_y b - ev_y a in
  let dx2 := ev_x c - ev_x b in
  let dy2 := ev_y c - ev_y b in
  let mag1 := sqrt (dx1 * dx1 + dy1 * dy1) in
  let mag2 := sqrt (dx2 * dx2 + dy2 * dy2) in
  if (Js.gt mag1 0 && Js.gt mag2 0)%bool
  then [acos (Rmax (-1) (Rmin 1 ((dx1 * dx2 + dy1 * dy2) / (mag1 * mag2))))]
  else [].

(** The angles of all triples of consecutive events, in order. *)
Fixpoint triple_angles (l : list MouseEvent) : list R :=
  match l with
  | a :: (b :: c :: _) as rest => angle_between a b c ++ triple_angles rest
  | _ => []
  end.

Definition angle_at (l : list MouseEvent) (i : nat) : list R :=
  angle_between (at_index l (i - 2)) (at_index l (i - 1)) (at_index l i).

End RandomnessNotions.

Section RandomnessRuns.
Import MouseTracker.



End RandomnessRuns.

Section PressureNotions.
Import MouseTracker.

(** A [mousedown] whose stress level and random draw are not negative, as
    the classifier's level index (0 to 4) and [Math.random()] are. *)
Definition calm (e : DomEvent) : Prop :=
  match e with
  | MouseDown _ _ _ _ currentStress random => 0 <= currentStress /\ 0 <= random
  | _ => True
  end.

(** The pressures of the click events of a buffer, in order. *)
Definition click_pressures (buffer : list MouseEvent) : list R :=
  flat_map (fun e => match e with
                     | ClickEvent _ _ _ _ p => [p]
                     | _ => []
                     end) buffer.

(** The pressures the click events of a buffer carry: a click whose
    pressure is 0 carries none. *)
Definition carried_pressures (buffer : list MouseEvent) : list R :=
  flat_map (fun e => match e with
                     | ClickEvent _ _ _ _ p => if Req_dec_T p 0 then [] else [p]
                     | _ => []
                     end) buffer.

(** The events of two clicks with a move in between: the first at stress
    level 0, the second at stress level 4, both with the draw 0, so that both
    carry the pressure 0.8. *)
Definition two_clicks : list DomEvent :=
  [MouseDown 0 1 1 5 0 0; MouseMove 2 2 6; MouseDown 0 2 2 9 4 0].

(** A tracker whose buffer holds [buffer]. *)
Definition holding (buffer : list MouseEvent) : t :=
  {| mouseEvents := buffer;
     isTracking := true;
     lastMousePosition := {| x := 0; y := 0 |};
     lastMouseMoveTime := None;
     clickCount := 0;
     totalDistance := 0;
     simulatedPressure := 1.0;
     pressureVariation := 0 |}.

(** A buffer with a click of pressure 0, a move, a click of pressure 0.5, a
    wheel event and a click of pressure 1. *)
Definition mixed_buffer : list MouseEvent :=
  [ClickEvent 0 1 1 5 0; MoveEvent 2 2 6 0; ClickEvent 0 2 2 7 0.5;
   ScrollEvent 0 3 8; ClickEvent 2 2 2 9 1].

(** A buffer whose only click has the pressure 0. *)
Definition pressureless_buffer : list MouseEvent :=
  [MoveEvent 2 2 6 0; ClickEvent 0 2 2 7 0; ScrollEvent 0 3 8].

End PressureNotions.

Section WindowNotions.
Import StressVisualization.

(** The [n] most recent elements of a history. *)
Definition lastn {A : Type} (n : nat) (l : list A) : list A :=
  skipn (length l - n) l.

End WindowNotions.

Section BufferNotions.
Import StressDetectionApp.

(** The invariant of the application: the point buffer of the heat map is
    within its capacity of 1000. *)
Definition points_bounded (app : t) : Prop :=
  StressVisualization.maxPoints (visualization app) = 1000%nat /\
  (length (StressVisualization.mousePoints (visualization app)) <= 1000)%nat.

(** The events the mouse tracker pushes on its buffer. *)
Definition recorded (e : MouseTracker.DomEvent) : bool :=
  match e with
  | MouseTracker.MouseUp _ _ _ _ => false
  | _ => true
  end.

(** One pointer move over the page. *)
Definition a_move : StressVisualization.Call :=
  {| StressVisualization.call_x := 12;
     StressVisualization.call_y := 7;
     StressVisualization.call_rect := {| StressVisualization.left := 0;
                                         StressVisualization.top := 0 |};
     StressVisualization.call_tPoint := 1;
     StressVisualization.call_tCheck := 1;
     StressVisualization.call_tUpdate := 1 |}.

(** Monitoring is started and the pointer moves 1001 times. *)
Definition long_session : list Input :=
  ClickStart 0 0 true true :: repeat (Move a_move 1 false) 1001.

End BufferNotions.

Section LifeCycleNotions.
Import StressDetectionApp.

(** The accumulated data of a session: the two buffers and the four
    running counters. *)
Record SessionData : Type := mkSessionData {
  data_keyEvents : list KeyboardTracker.KeyEvent;
  data_mouseEvents : list MouseTracker.MouseEvent;
  data_totalKeyPresses : Z;
  data_backspaceCount : Z;
  data_clickCount : Z;
  data_totalDistance : R
}.

Definition collect_data (k : KeyboardTracker.t) (m : MouseTracker.t) : SessionData :=
  {| data_keyEvents := KeyboardTracker.keyEvents k;
     data_mouseEvents := MouseTracker.mouseEvents m;
     data_totalKeyPresses := KeyboardTracker.totalKeyPresses k;
     data_backspaceCount := KeyboardTracker.backspaceCount k;
     data_clickCount := MouseTracker.clickCount m;
     data_totalDistance := MouseTracker.totalDistance m |}.

Definition session_data (app : t) : SessionData :=
  collect_data (keyboardTracker app) (mouseTracker app).

Definition no_data : SessionData :=
  {| data_keyEvents := [];
     data_mouseEvents := [];
     data_totalKeyPresses := 0;
     data_backspaceCount := 0;
     data_clickCount := 0;
     data_totalDistance := 0 |}.

(** What a start leaves of the accumulated data [d]: the keyboard part is
    emptied when the keyboard box is checked and kept otherwise, and so is the
    mouse part with the mouse box. *)
Definition data_after_start (trackKeyboard trackMouse : bool) (d : SessionData) :
    SessionData :=
  {| data_keyEvents := if trackKeyboard then [] else data_keyEvents d;
     data_mouseEvents := if trackMouse then [] else data_mouseEvents d;
     data_totalKeyPresses := if trackKeyboard then 0%Z else data_totalKeyPresses d;
     data_backspaceCount := if trackKeyboard then 0%Z else data_backspaceCount d;
     data_clickCount := if trackMouse then 0%Z else data_clickCount d;
     data_totalDistance := if trackMouse then 0 else data_totalDistance d |}.

(** Monitoring is started with both boxes checked and a key and a mouse
    button are pressed. *)
Definition active_session : t :=
  run (constructor true true true)
    [ClickStart 0 0 true true;
     Key (KeyboardTracker.KeyDown "a" "KeyA" 5);
     Down 0 1 1 6 0.5].

(** Monitoring is started with both boxes checked, a key and a mouse button
    are pressed, and monitoring is paused. *)
Definition paused_session : t :=
  run (constructor true true true)
    [ClickStart 0 0 true true;
     Key (KeyboardTracker.KeyDown "a" "KeyA" 5);
     Down 0 1 1 6 0.5;
     ClickPause].

End LifeCycleNotions.

Section CounterNotions.

(** A key-down event of the Backspace or of the Delete key. *)
Definition is_correction (e : KeyboardTracker.KeyEvent) : bool :=
  (String.eqb (KeyboardTracker.key e) "Backspace"
   || String.eqb (KeyboardTracker.key e) "Delete")%bool.

(** The two counters of the keyboard tracker count what its buffer holds. *)
Definition key_counters_agree (s : KeyboardTracker.t) : Prop :=
  KeyboardTracker.totalKeyPresses s
  = Z.of_nat (length (KeyboardTracker.keyDownEvents s)) /\
  KeyboardTracker.backspaceCount s
  = Z.of_nat (length (filter is_correction (KeyboardTracker.keyDownEvents s))).

(** [this.mouseEvents.filter(e => e.eventType === 'scroll')], the wheel
    events of the buffer. *)
Definition scrollEvents (s : MouseTracker.t) : list MouseTracker.MouseEvent :=
  filter (fun e => MouseTracker.EventType_eqb (MouseTracker.eventType e) MouseTracker.scroll)
         (MouseTracker.mouseEvents s).

(** The click counter counts the clicks of the buffer, and the running
    distance is not negative. *)
Definition mouse_counters_agree (s : MouseTracker.t) : Prop :=
  MouseTracker.clickCount s = Z.of_nat (length (MouseTracker.clickEvents s)) /\
  0 <= MouseTracker.totalDistance s.

(** No tracker listens while the application is not monitoring. *)
Definition tracking_needs_monitoring (app : StressDetectionApp.t) : Prop :=
  (KeyboardTracker.isTracking (StressDetectionApp.keyboardTracker app) = true ->
   StressDetectionApp.isMonitoring app = true) /\
  (MouseTracker.isTracking (StressDetectionApp.mouseTracker app) = true ->
   StressDetectionApp.isMonitoring app = true).

(** The inputs that come from the keyboard and the pointer. *)
Definition user_event (i : StressDetectionApp.Input) : bool :=
  match i with
  | StressDetectionApp.Key _ | StressDetectionApp.Move _ _ _
  | StressDetectionApp.Down _ _ _ _ _ | StressDetectionApp.Up _ _ _ _
  | StressDetectionApp.Scroll _ _ _ => true
  | _ => false
  end.

End CounterNotions.

Section KeyboardRunNotions.
Import KeyboardTracker.

(** The key-down events of a run of inputs, as the listener records them. *)
Definition recorded_downs (es : list DomEvent) : list KeyEvent :=
  flat_map (fun e => match e with
                     | KeyDown k c now =>
                         [{| key := k; code := c; timestamp := now;
                             eventType := keydown; pressure := Some 1 |}]
                     | KeyUp _ _ _ => []
                     end) es.

Definition is_KeyDown (e : DomEvent) : bool :=
  match e with KeyDown _ _ _ => true | KeyUp _ _ _ => false end.

(** Five key presses with the releases in between. *)
Definition hello_with_releases : list DomEvent :=
  [KeyDown "h" "KeyH" 0; KeyUp "h" "KeyH" 90; KeyDown "e" "KeyE" 200;
   KeyDown "l" "KeyL" 400; KeyUp "e" "KeyE" 410; KeyUp "l" "KeyL" 500;
   KeyDown "l" "KeyL" 600; KeyDown "o" "KeyO" 800; KeyUp "o" "KeyO" 900].

End KeyboardRunNotions.

Section TypingSpeedNotions.
Import KeyboardTracker.






End TypingSpeedNotions.

Section PathNotions.
Import MouseTracker.

(** Where an event of the buffer lies. *)
Definition position (e : MouseEvent) : R * R := (ev_x e, ev_y e).

(** The path of the pointer: the positions of the move events of the
    buffer. *)
Definition path (s : t) : list (R * R) := map position (moveEvents s).

(** A drag along a diagonal with a click and a wheel turn on the way. *)
Definition diagonal_drag : list DomEvent :=
  [MouseMove 1 1 0; MouseDown 0 1 1 5 0 0.5; MouseMove 2 2 10; Wheel 0 3 15;
   MouseMove 4 4 20; MouseMove 7 7 30].

End PathNotions.

Section SpeedNotions.
Import MouseTracker.

(** [e.movementSpeed], present on move events. *)
Definition ev_movementSpeed (e : MouseEvent) : R :=
  match e with
  | MoveEvent _ _ _ v => v
  | _ => 0
  end.

(** The times of the moves of a run do not run backwards, starting from
    the time of the last move the tracker remembers. *)
Fixpoint forward_in_time (lastTime : option Z) (es : list DomEvent) : Prop :=
  match es with
  | [] => True
  | MouseMove _ _ now :: rest =>
      match lastTime with Some t0 => (t0 <= now)%Z | None => True end
      /\ forward_in_time (Some now) rest
  | _ :: rest => forward_in_time lastTime rest
  end.

(** Two clicks one second apart. *)
Definition double_click : t :=
  run (fresh constructor) [MouseDown 0 1 1 0 0 0.5; MouseMove 2 2 500; MouseDown 0 2 2 1000 0 0.5].

End SpeedNotions.

Section HistoryNotions.
Import StressHistory.

(** The times and the levels of all the records of a run, oldest first. *)
Definition record_times (cs : list Command) : list string :=
  flat_map (fun c => match c with Record_ time _ _ => [time] | Reset => [] end) cs.

Definition record_levels (cs : list Command) : list R :=
  flat_map (fun c => match c with Record_ _ level _ => [level] | Reset => [] end) cs.

(** The entries made since the last reset, oldest first, after the entries
    [shown]. *)
Fixpoint entries_since_reset (shown : list Item) (cs : list Command) : list Item :=
  match cs with
  | [] => shown
  | Record_ time level confidence :: rest =>
      entries_since_reset
        (shown ++ [{| item_time := time; item_level := level;
                      item_percent := Js.Math_round (confidence * 100) |}]) rest
  | Reset :: rest => entries_since_reset [] rest
  end.

End HistoryNotions.

(** * Properties *)

(** ** Numbers *)

Lemma strict_eq_true (a b : R) : a = b -> Js.strict_eq a b = true.
Proof. intros H. unfold Js.strict_eq. destruct (Req_dec_T a b); congruence. Qed.

Lemma strict_eq_false (a b : R) : a <> b -> Js.strict_eq a b = false.
Proof. intros H. unfold Js.strict_eq. destruct (Req_dec_T a b); congruence. Qed.

Lemma strict_eq_spec (a b : R) : reflect (a = b) (Js.strict_eq a b).
Proof. unfold Js.strict_eq. destruct (Req_dec_T a b); constructor; assumption. Qed.



Lemma truthy_true (a : R) : a <> 0 -> Js.truthy a = true.
Proof. intros H. unfold Js.truthy. now rewrite strict_eq_false. Qed.

Lemma Math_round_le (a b : R) : a <= b -> Js.Math_round a <= Js.Math_round b.
Proof.
  intros H. unfold Js.Math_round. apply IZR_le, Zfloor_le. lra.
Qed.

Lemma Math_round_integer (z : Z) : Js.Math_round (IZR z) = IZR z.
Proof.
  unfold Js.Math_round. f_equal. apply Zfloor_eq. lra.
Qed.

Lemma Math_round_nonneg (a : R) : 0 <= a -> 0 <= Js.Math_round a.
Proof.
  intros H. rewrite <- (Math_round_integer 0). now apply Math_round_le.
Qed.

Lemma filter_length_le {A : Type} (f : A -> bool) (l : list A) :
  (length (filter f l) <= length l)%nat.
Proof.
  induction l as [|a l IH]; simpl; [lia|]. destruct (f a); simpl; lia.
Qed.

(** ** The keyboard tracker *)

Section KeyboardFacts.
Import KeyboardTracker.

(** Unfolding of [calculateTypingSpeed] once both length tests have passed. *)
Lemma calculateTypingSpeed_unfold (s : t) :
  (2 <= length (keyDownEvents s))%nat ->
  calculateTypingSpeed s =
  let downs := keyDownEvents s in
  let span := IZR (date_at downs (length downs - 1) - date_at downs 0) / 1000 in
  if Js.strict_eq span 0 then 0
  else Js.Math_round ((INR (length downs) / span) * 60 / 5).
Proof.
  intros H. unfold calculateTypingSpeed, Js.length_num.
  pose proof (filter_length_le (fun e => EventType_eqb (eventType e) keydown) (keyEvents s)) as Hle.
  fold (keyDownEvents s) in Hle.
  destruct (Nat.ltb_spec (length (keyEvents s)) 2) as [Hlt|_]; [lia|].
  destruct (Nat.ltb_spec (length (keyDownEvents s)) 2) as [Hlt|_]; [lia|].
  reflexivity.
Qed.

Lemma calculateTypingSpeed_few (s : t) :
  (length (keyDownEvents s) < 2)%nat -> calculateTypingSpeed s = 0.
Proof.
  intros H. unfold calculateTypingSpeed.
  destruct (Nat.ltb_spec (length (keyEvents s)) 2) as [_|_]; [reflexivity|].
  destruct (Nat.ltb_spec (length (keyDownEvents s)) 2) as [_|Hge]; [reflexivity|lia].
Qed.

(** With the first key press not after the last, the speed is not negative. *)
Lemma calculateTypingSpeed_nonneg (s : t) :
  (date_at (keyDownEvents s) 0
   <= date_at (keyDownEvents s) (length (keyDownEvents s) - 1))%Z ->
  0 <= calculateTypingSpeed s.
Proof.
  intros Hord.
  destruct (Nat.lt_ge_cases (length (keyDownEvents s)) 2) as [Hlt|Hge].
  - rewrite calculateTypingSpeed_few by assumption. lra.
  - rewrite calculateTypingSpeed_unfold by assumption. cbv zeta.
    set (span := IZR _ / 1000).
    destruct (strict_eq_spec span 0) as [_|Hne]; [lra|].
    apply Math_round_nonneg.
    assert (0 <= span).
    { unfold span. apply IZR_le in Hord. rewrite minus_IZR. lra. }
    assert (0 < span) by lra.
    assert (0 <= INR (length (keyDownEvents s))) by apply pos_INR.
    assert (0 <= INR (length (keyDownEvents s)) / span).
    { apply Rmult_le_pos; [assumption|]. left. now apply Rinv_0_lt_compat. }
    lra.
Qed.

End KeyboardFacts.

Section KeyboardClaims.
Import KeyboardTracker.

(** C3, as stated, fails: after a single Backspace press the ratio times 0.3
    is 0.3, and [calculateKeyPressVariance] returns 0, by its guard on the
    length of the buffer. *)
Lemma variance_proxy_single_backspace :
  backspaceRatio one_backspace * 0.3 = 0.3 /\
  calculateKeyPressVariance one_backspace <> backspaceRatio one_backspace * 0.3.
Proof.
  assert (Hr : backspaceRatio one_backspace * 0.3 = 0.3).
  { unfold backspaceRatio, one_backspace, Js.Math_max. simpl.
    rewrite Rmax_left by lra. lra. }
  split; [exact Hr|].
  rewrite Hr. unfold calculateKeyPressVariance, one_backspace. simpl. lra.
Qed.

(** C3 (amended): [calculateKeyPressVariance] returns 0 while the key buffer
    holds fewer than two events (of either kind), and otherwise the backspace
    ratio, [backspaceCount / max(totalKeyPresses, 1)], times 0.3. *)
Theorem calculateKeyPressVariance_cases (s : t) :
  ((length (keyEvents s) < 2)%nat -> calculateKeyPressVariance s = 0) /\
  ((2 <= length (keyEvents s))%nat ->
   calculateKeyPressVariance s
   = IZR (backspaceCount s) / Rmax (IZR (totalKeyPresses s)) 1 * 0.3).
Proof.
  unfold calculateKeyPressVariance, backspaceRatio, Js.Math_max.
  destruct (Nat.ltb_spec (length (keyEvents s)) 2); split; intros; try lia; reflexivity.
Qed.

Lemma calculateKeyPressVariance_cases_witness :
  calculateKeyPressVariance (startTracking 0 constructor) = 0 /\
  calculateKeyPressVariance two_presses = 1 / Rmax 2 1 * 0.3.
Proof.
  split.
  - apply (proj1 (calculateKeyPressVariance_cases (startTracking 0 constructor))).
    simpl. lia.
  - apply (proj2 (calculateKeyPressVariance_cases two_presses)).
    simpl. lia.
Defined.






(** The three key presses of [three_presses] span 0.8 s: 3 / 0.8 * 60 / 5 is
    45, over the reals and in binary64. *)
Example typing_speed_three_presses :
  calculateTypingSpeed three_presses = 45 /\
  calculateTypingSpeed64 three_presses = 45%float.
Proof.
  split; [|vm_compute; reflexivity].
  rewrite calculateTypingSpeed_unfold by (simpl; lia).
  unfold three_presses, keyDownEvents, date_at. simpl.
  rewrite strict_eq_false by lra.
  replace ((1 + 1 + 1) / (800 / 1000) * 60 / 5) with (IZR 45) by lra.
  apply Math_round_integer.
Qed.

(** C7: with the times of the first and of the last key-down event held
    fixed (the first not after the last, as the buffer is in time order), a
    buffer with at least as many key-down events has at least the typing
    speed. *)
Theorem calculateTypingSpeed_monotone (s1 s2 : t) :
  let d1 := keyDownEvents s1 in
  let d2 := keyDownEvents s2 in
  (1 <= length d1)%nat ->
  date_at d1 0 = date_at d2 0 ->
  date_at d1 (length d1 - 1) = date_at d2 (length d2 - 1) ->
  (date_at d1 0 <= date_at d1 (length d1 - 1))%Z ->
  (length d1 <= length d2)%nat ->
  calculateTypingSpeed s1 <= calculateTypingSpeed s2.
Proof.
  cbv zeta. intros Hne Hfirst Hlast Hord Hlen.
  destruct (Nat.lt_ge_cases (length (keyDownEvents s1)) 2) as [Hlt|Hge].
  - rewrite (calculateTypingSpeed_few s1) by assumption.
    apply calculateTypingSpeed_nonneg. rewrite <- Hfirst, <- Hlast. exact Hord.
  - rewrite !calculateTypingSpeed_unfold by lia. cbv zeta.
    rewrite <- Hfirst, <- Hlast.
    set (span := IZR _ / 1000).
    destruct (strict_eq_spec span 0) as [_|Hnz]; [lra|].
    apply Math_round_le.
    assert (Hspan : 0 < span).
    { assert (0 <= span); [|lra].
      unfold span. apply IZR_le in Hord. rewrite minus_IZR. lra. }
    apply le_INR in Hlen.
    assert (Hinv : 0 < / span) by now apply Rinv_0_lt_compat.
    unfold Rdiv. nra.
Qed.

Lemma calculateTypingSpeed_monotone_witness :
  calculateTypingSpeed three_presses
  <= calculateTypingSpeed (five_presses constructor 0 0 ("h"%string, "KeyH"%string) ("e"%string, "KeyE"%string)
                             ("l"%string, "KeyL"%string) ("l"%string, "KeyL"%string) ("o"%string, "KeyO"%string)).
Proof.
  apply calculateTypingSpeed_monotone;
    unfold three_presses, five_presses, keyDownEvents, date_at; simpl;
    (reflexivity || lia).
Defined.

End KeyboardClaims.

(** ** The mouse tracker: distance *)

Section MouseDistance.
Import MouseTracker.

Lemma handle_isTracking (s : t) (e : DomEvent) :
  isTracking (handle s e) = isTracking s.
Proof.
  destruct e; simpl;
    unfold on_mousemove, on_mousedown, on_mouseup, on_wheel;
    destruct (isTracking s) eqn:E; simpl; congruence.
Qed.

Lemma run_isTracking (es : list DomEvent) (s : t) :
  isTracking (run s es) = isTracking s.
Proof.
  revert s. induction es as [|e es IH]; intros s; [reflexivity|].
  unfold run in *. simpl. rewrite IH. apply handle_isTracking.
Qed.

Lemma run_app (s : t) (es1 es2 : list DomEvent) :
  run s (es1 ++ es2) = run (run s es1) es2.
Proof. unfold run. apply fold_left_app. Qed.

Lemma last_cons_default {A : Type} (l : list A) (a d d' : A) :
  last (a :: l) d = last (a :: l) d'.
Proof.
  revert a. induction l as [|b l IH]; intros a; [reflexivity|].
  change (last (b :: l) d = last (b :: l) d'). apply IH.
Qed.

(** What one move does to the running distance and to the stored position. *)
Lemma on_mousemove_totalDistance (s : t) (cx cy : R) (now : Z) :
  isTracking s = true ->
  totalDistance (on_mousemove cx cy now s)
  = totalDistance s
    + (if is_origin (lastMousePosition s) then 0
       else dist (lastMousePosition s) {| x := cx; y := cy |})
  /\ lastMousePosition (on_mousemove cx cy now s) = {| x := cx; y := cy |}.
Proof.
  intros Htr. unfold on_mousemove. rewrite Htr. simpl. split; [|reflexivity].
  unfold is_origin, dist, Js.Math_sqrt. simpl.
  destruct (Js.strict_eq (x (lastMousePosition s)) 0);
    destruct (Js.strict_eq (y (lastMousePosition s)) 0); simpl; lra.
Qed.

(** The running distance after any run of pointer events. *)
Lemma run_totalDistance (es : list DomEvent) (s : t) :
  isTracking s = true ->
  totalDistance (run s es)
  = totalDistance s + counted_length (lastMousePosition s) (move_positions es)
  /\ lastMousePosition (run s es) = last (move_positions es) (lastMousePosition s).
Proof.
  revert s. induction es as [|e es IH]; intros s Htr.
  - simpl. split; [lra | reflexivity].
  - assert (Htr' : isTracking (handle s e) = true) by now rewrite handle_isTracking.
    destruct (IH _ Htr') as [IHd IHp].
    change (run s (e :: es)) with (run (handle s e) es).
    rewrite IHd, IHp. clear IHd IHp IH.
    destruct e as [cx cy now | b cx cy now st rnd | b cx cy now | dx dy now].
    + destruct (on_mousemove_totalDistance s cx cy now Htr) as [Hd Hp].
      simpl handle. rewrite Hd, Hp.
      change (move_positions (MouseMove cx cy now :: es))
        with ({| x := cx; y := cy |} :: move_positions es).
      split.
      * simpl counted_length. lra.
      * destruct (move_positions es) as [|q qs]; [reflexivity|].
        change (last (q :: qs) {| x := cx; y := cy |}
                = last (q :: qs) (lastMousePosition s)).
        apply last_cons_default.
    + simpl handle. unfold on_mousedown. rewrite Htr. simpl. split; reflexivity.
    + simpl handle. unfold on_mouseup. simpl. split; reflexivity.
    + simpl handle. unfold on_wheel. rewrite Htr. simpl. split; reflexivity.
Qed.

(** Away from the origin the listener's count is the length of the path. *)
Lemma counted_length_path (ps : list Point) (p : Point) :
  is_origin p = false ->
  (forall q, In q (removelast ps) -> is_origin q = false) ->
  counted_length p ps = path_length (p :: ps).
Proof.
  revert p. induction ps as [|q rest IH]; intros p Hp Hall.
  - reflexivity.
  - simpl counted_length. rewrite Hp.
    change (path_length (p :: q :: rest)) with (dist p q + path_length (q :: rest)).
    f_equal. destruct rest as [|r rest'].
    + reflexivity.
    + apply IH.
      * apply Hall. simpl. now left.
      * intros q' Hin. apply Hall. simpl. right. exact Hin.
Qed.

Lemma counted_length_from_origin (ps : list Point) (p : Point) :
  is_origin p = true ->
  (forall q, In q (removelast ps) -> is_origin q = false) ->
  counted_length p ps = path_length ps.
Proof.
  intros Hp Hall. destruct ps as [|q rest]; [reflexivity|].
  simpl counted_length. rewrite Hp, Rplus_0_l.
  destruct rest as [|r rest'].
  - reflexivity.
  - apply counted_length_path.
    + apply Hall. simpl. now left.
    + intros q' Hin. apply Hall. simpl. right. exact Hin.
Qed.

Lemma is_origin_zero : is_origin {| x := 0; y := 0 |} = true.
Proof. unfold is_origin. simpl. now rewrite strict_eq_true. Qed.

Lemma is_origin_false (p : Point) : x p <> 0 \/ y p <> 0 -> is_origin p = false.
Proof.
  intros H. unfold is_origin.
  destruct (strict_eq_spec (x p) 0), (strict_eq_spec (y p) 0); simpl; try reflexivity.
  tauto.
Qed.

Lemma dist_3_4_origin :
  dist {| x := 3; y := 4 |} {| x := 0; y := 0 |} = 5
  /\ dist {| x := 0; y := 0 |} {| x := 3; y := 4 |} = 5.
Proof.
  unfold dist. simpl. split.
  - replace ((0 - 3) * (0 - 3) + (0 - 4) * (0 - 4)) with (5 * 5) by lra.
    apply sqrt_square. lra.
  - replace ((3 - 0) * (3 - 0) + (4 - 0) * (4 - 0)) with (5 * 5) by lra.
    apply sqrt_square. lra.
Qed.

(** C4, as stated, fails: on the path (3,4), (0,0), (3,4) the consecutive
    distances add up to 10, and the tracker has counted 5. *)
Lemma totalDistance_through_origin :
  path_length (move_positions through_origin) = 10 /\
  totalDistance (run (fresh constructor) through_origin) = 5 /\
  totalDistance (run (fresh constructor) through_origin)
  <> path_length (move_positions through_origin).
Proof.
  destruct dist_3_4_origin as [H1 H2].
  assert (Hp : path_length (move_positions through_origin) = 10).
  { simpl. rewrite H1, H2. lra. }
  assert (Ht : totalDistance (run (fresh constructor) through_origin) = 5).
  { destruct (run_totalDistance through_origin (fresh constructor) eq_refl) as [Hd _].
    rewrite Hd. simpl.
    rewrite is_origin_zero.
    rewrite (is_origin_false {| x := 3; y := 4 |}) by (left; simpl; lra).
    rewrite H1. lra. }
  split; [exact Hp|]. split; [exact Ht|]. rewrite Hp, Ht. lra.
Qed.

(** C4 (amended): for the move events recorded after a reset, none of which
    but possibly the last lies on the origin (0,0), [totalDistance] is the sum
    of the Euclidean distances between consecutive move positions, the first
    move contributing nothing. Clicks and wheel events in between change
    nothing. *)
Theorem totalDistance_after_reset (s : t) (es : list DomEvent) :
  (forall p, In p (removelast (move_positions es)) -> is_origin p = false) ->
  totalDistance (run (fresh s) es) = path_length (move_positions es).
Proof.
  intros Hall.
  destruct (run_totalDistance es (fresh s) eq_refl) as [Hd _].
  rewrite Hd. simpl totalDistance. simpl lastMousePosition.
  rewrite (counted_length_from_origin _ _ is_origin_zero Hall). lra.
Qed.

Lemma totalDistance_after_reset_witness :
  totalDistance (run (fresh constructor) ends_on_origin)
  = path_length (move_positions ends_on_origin).
Proof.
  apply totalDistance_after_reset.
  simpl. intros p [<-|[<-|[]]]; apply is_origin_false; simpl; left; lra.
Defined.

(** C9: once a recorded move has landed on (0,0), the next move adds nothing
    to [totalDistance], whatever its distance from the origin; the position
    (0,0) stored by [reset] has the same effect. Both moves are recorded as
    events. *)
Theorem origin_hides_next_distance (s : t) (t1 t2 : Z) (cx cy : R)
    (between : list DomEvent) :
  isTracking s = true ->
  move_positions between = [] ->
  let s1 := on_mousemove 0 0 t1 s in
  let s2 := on_mousemove cx cy t2 (run s1 between) in
  (length (moveEvents s1) = length (moveEvents s) + 1)%nat /\
  lastMousePosition s1 = {| x := 0; y := 0 |} /\
  totalDistance s2 = totalDistance s1 /\
  lastMousePosition s2 = {| x := cx; y := cy |} /\
  totalDistance (on_mousemove cx cy t2 (fresh s)) = 0.
Proof.
  intros Htr Hbetween. cbv zeta.
  assert (Htr1 : isTracking (on_mousemove 0 0 t1 s) = true).
  { change (isTracking (handle s (MouseMove 0 0 t1)) = true).
    now rewrite handle_isTracking. }
  destruct (on_mousemove_totalDistance s 0 0 t1 Htr) as [_ Hp1].
  split; [|split; [exact Hp1|]].
  - unfold on_mousemove, moveEvents. rewrite Htr. simpl.
    rewrite filter_app, length_app. reflexivity.
  - destruct (run_totalDistance between _ Htr1) as [Hd Hp].
    rewrite Hbetween in Hd, Hp. simpl in Hd, Hp.
    assert (Htr2 : isTracking (run (on_mousemove 0 0 t1 s) between) = true)
      by now rewrite run_isTracking.
    destruct (on_mousemove_totalDistance _ cx cy t2 Htr2) as [Hd2 Hp2].
    split; [|split; [exact Hp2|]].
    + rewrite Hd2, Hp, Hp1, is_origin_zero, Hd. lra.
    + destruct (on_mousemove_totalDistance (fresh s) cx cy t2 eq_refl) as [Hd3 _].
      rewrite Hd3. simpl. rewrite is_origin_zero. lra.
Qed.

Lemma origin_hides_next_distance_witness :
  totalDistance
    (on_mousemove 3 4 20
       (run (on_mousemove 0 0 10 (run (fresh constructor) [MouseMove 3 4 0]))
            [Wheel 0 1 15]))
  = totalDistance (on_mousemove 0 0 10 (run (fresh constructor) [MouseMove 3 4 0])).
Proof.
  apply (origin_hides_next_distance (run (fresh constructor) [MouseMove 3 4 0])
           10 20 3 4 [Wheel 0 1 15]); reflexivity.
Defined.

End MouseDistance.

(** ** The mouse tracker: randomness *)

Section MouseRandomness.
Import MouseTracker.

Lemma angle_loop_body_push (l : list MouseEvent) (acc : list R) (i : nat) :
  angle_loop_body l acc i = acc ++ angle_at l i.
Proof.
  unfold angle_loop_body, angle_at, angle_between, Js.Math_sqrt, Js.Math_acos,
    Js.Math_max, Js.Math_min.
  cbv zeta.
  match goal with |- context [if ?c then _ else _] => destruct c end.
  - reflexivity.
  - now rewrite app_nil_r.
Qed.

Lemma angle_loop_fold (l : list MouseEvent) (idxs : list nat) (acc : list R) :
  fold_left (angle_loop_body l) idxs acc = acc ++ flat_map (angle_at l) idxs.
Proof.
  revert acc. induction idxs as [|i idxs IH]; intros acc; simpl.
  - now rewrite app_nil_r.
  - rewrite IH, angle_loop_body_push. now rewrite <- app_assoc.
Qed.

Lemma angle_at_shift (a : MouseEvent) (l : list MouseEvent) (i : nat) :
  (2 <= i)%nat -> angle_at (a :: l) (S i) = angle_at l i.
Proof.
  intros Hi. unfold angle_at, at_index.
  replace (S i - 2)%nat with (S (i - 2)) by lia.
  replace (S i - 1)%nat with (S (i - 1)) by lia.
  reflexivity.
Qed.

Lemma angles_shift (a : MouseEvent) (l : list MouseEvent) (n : nat) :
  flat_map (angle_at (a :: l)) (seq 3 n) = flat_map (angle_at l) (seq 2 n).
Proof.
  rewrite <- (seq_shift n 2), !flat_map_concat_map, map_map. f_equal.
  apply map_ext_in. intros i Hi. apply in_seq in Hi.
  apply angle_at_shift. lia.
Qed.

(** The index loop of the source visits the triples of consecutive events. *)
Lemma angleChanges_triples (l : list MouseEvent) :
  angleChanges l = triple_angles l.
Proof.
  unfold angleChanges. rewrite angle_loop_fold. simpl app.
  induction l as [|a l IH]; [reflexivity|].
  destruct l as [|b [|c rest]]; [reflexivity | reflexivity |].
  change (length (a :: b :: c :: rest) - 2)%nat with (S (length rest)).
  change (seq 2 (S (length rest))) with (2%nat :: seq 3 (length rest)).
  change (triple_angles (a :: b :: c :: rest))
    with (angle_between a b c ++ triple_angles (b :: c :: rest)).
  replace (length (b :: c :: rest) - 2)%nat with (length rest) in IH by (simpl; lia).
  rewrite <- IH. simpl flat_map at 1. f_equal.
  apply angles_shift.
Qed.

Lemma reduce_sum {A : Type} (f : A -> R) (l : list A) (acc : R) :
  Js.reduce (fun a b => a + f b) acc l = acc + sum_list (map f l).
Proof.
  unfold Js.reduce. revert acc.
  induction l as [|b l IH]; intros acc; simpl; [lra|]. rewrite IH. lra.
Qed.

Lemma sum_list_nonneg (l : list R) : Forall (fun a => 0 <= a) l -> 0 <= sum_list l.
Proof.
  induction 1 as [|a l Ha _ IH]; simpl; lra.
Qed.

Lemma population_variance_nonneg (l : list R) : 0 <= population_variance l.
Proof.
  unfold population_variance.
  assert (Hs : 0 <= sum_list (map (fun a => (a - mean l) ^ 2) l)).
  { apply sum_list_nonneg, Forall_forall. intros v Hv.
    apply in_map_iff in Hv. destruct Hv as [a [<- _]]. apply pow2_ge_0. }
  destruct l as [|a l].
  - simpl. unfold Rdiv. rewrite Rinv_0. lra.
  - apply Rmult_le_pos; [exact Hs|]. left. apply Rinv_0_lt_compat.
    apply lt_0_INR. simpl. lia.
Qed.

(** [calculateMouseRandomness] once the guards on the lengths have passed. *)
Lemma calculateMouseRandomness_unfold (s : t) :
  (3 <= length (moveEvents s))%nat ->
  calculateMouseRandomness s
  = match triple_angles (moveEvents s) with
    | [] => 0.1
    | angles => Rmin (10 * population_variance angles) 1
    end.
Proof.
  intros H. unfold calculateMouseRandomness.
  pose proof (filter_length_le (fun e => EventType_eqb (eventType e) move) (mouseEvents s)) as Hle.
  fold (moveEvents s) in Hle.
  destruct (Nat.ltb_spec (length (mouseEvents s)) 3) as [Hlt|_]; [lia|].
  destruct (Nat.ltb_spec (length (moveEvents s)) 3) as [Hlt|_]; [lia|].
  cbv zeta. rewrite angleChanges_triples.
  destruct (triple_angles (moveEvents s)) as [|a angles] eqn:E; [reflexivity|].
  change (length (a :: angles) =? 0)%nat with false. cbv iota.
  unfold Js.Math_min, Js.Math_pow, Js.length_num.
  rewrite (reduce_sum (fun b => b)), map_id, Rplus_0_l.
  fold (mean (a :: angles)).
  rewrite (reduce_sum (fun b => (b - mean (a :: angles)) ^ 2)), Rplus_0_l.
  fold (population_variance (a :: angles)).
  f_equal. lra.
Qed.

Lemma calculateMouseRandomness_few (s : t) :
  (length (moveEvents s) < 3)%nat -> calculateMouseRandomness s = 0.1.
Proof.
  intros H. unfold calculateMouseRandomness.
  destruct (Nat.ltb_spec (length (mouseEvents s)) 3) as [_|_]; [reflexivity|].
  destruct (Nat.ltb_spec (length (moveEvents s)) 3) as [_|Hge]; [reflexivity|lia].
Qed.


End MouseRandomness.

Section MouseRandomnessClaims.
Import MouseTracker.








End MouseRandomnessClaims.

(** ** The mouse tracker: pressure *)

Section MousePressure.
Import MouseTracker.

Lemma filter_both {A : Type} (f g : A -> bool) (l : list A) :
  Forall (fun a => g a = true) (filter f l) ->
  filter (fun a => (f a && g a)%bool) l = filter f l.
Proof.
  induction l as [|a l IH]; simpl; intros H; [reflexivity|].
  destruct (f a) eqn:Ef; simpl.
  - inversion H as [|? ? Hg Hrest]; subst. rewrite Hg. f_equal. now apply IH.
  - now apply IH.
Qed.

Lemma handle_click_pressure (s : t) (e : DomEvent) :
  calm e ->
  Forall (fun c => 0.8 <= ev_pressure c) (clickEvents s) ->
  Forall (fun c => 0.8 <= ev_pressure c) (clickEvents (handle s e)).
Proof.
  intros Hcalm Hs.
  destruct e as [cx cy now | b cx cy now st rnd | b cx cy now | dx dy now];
    simpl handle; unfold on_mousemove, on_mousedown, on_mouseup, on_wheel;
    destruct (isTracking s); simpl; try exact Hs;
    unfold clickEvents; simpl; rewrite filter_app; apply Forall_app;
    (split; [exact Hs|]); simpl.
  - constructor.
  - constructor; [|constructor]. simpl. destruct Hcalm as [Hst Hrnd]. nra.
  - constructor.
Qed.

(** Every click a run of calm events records carries a pressure of at
    least 0.8. *)
Lemma run_click_pressure (es : list DomEvent) (s : t) :
  Forall calm es ->
  Forall (fun c => 0.8 <= ev_pressure c) (clickEvents s) ->
  Forall (fun c => 0.8 <= ev_pressure c) (clickEvents (run s es)).
Proof.
  revert s. induction es as [|e es IH]; intros s Hcalm Hs; [exact Hs|].
  inversion Hcalm as [|? ? He Hes]; subst.
  change (run s (e :: es)) with (run (handle s e) es).
  apply IH; [exact Hes|]. now apply handle_click_pressure.
Qed.

Lemma pressureClickEvents_all (s : t) :
  Forall (fun c => ev_pressure c <> 0) (clickEvents s) ->
  pressureClickEvents s = clickEvents s.
Proof.
  intros H. unfold pressureClickEvents, clickEvents. apply filter_both.
  revert H. unfold clickEvents. apply Forall_impl. intros c Hc. now apply truthy_true.
Qed.

Lemma calculateAveragePressure_unfold (s : t) :
  calculateAveragePressure s
  = match pressureClickEvents s with
    | [] => 1
    | carrying => mean (map ev_pressure carrying)
    end.
Proof.
  unfold calculateAveragePressure. cbv zeta.
  destruct (pressureClickEvents s) as [|c carrying]; [simpl; lra|].
  change (length (c :: carrying) =? 0)%nat with false. cbv iota.
  unfold Js.length_num, mean.
  rewrite (reduce_sum ev_pressure), Rplus_0_l, length_map. reflexivity.
Qed.

Lemma carried_pressures_filter (s : t) :
  map ev_pressure (pressureClickEvents s) = carried_pressures (mouseEvents s).
Proof.
  unfold pressureClickEvents, carried_pressures.
  induction (mouseEvents s) as [|e l IH]; [reflexivity|].
  destruct e as [ex ey ts v | b ex ey ts pr | dx dy ts]; simpl; try exact IH.
  assert (Htruthy : Js.truthy pr = if Req_dec_T pr 0 then false else true).
  { unfold Js.truthy, Js.strict_eq. destruct (Req_dec_T pr 0); reflexivity. }
  rewrite Htruthy. destruct (Req_dec_T pr 0); simpl; now rewrite IH.
Qed.

Lemma click_pressures_filter (s : t) :
  map ev_pressure (clickEvents s) = click_pressures (mouseEvents s).
Proof.
  unfold clickEvents, click_pressures.
  induction (mouseEvents s) as [|e l IH]; [reflexivity|].
  destruct e; simpl; now rewrite ?IH.
Qed.

Lemma two_clicks_calm : Forall calm two_clicks.
Proof. repeat constructor; simpl; lra. Qed.

(** C8: [calculateAveragePressure] is a total function; it returns 1 when
    the buffer holds no click event carrying a pressure (a click whose
    pressure is zero counts as carrying none), and otherwise the arithmetic
    mean of the pressures of the click events that carry one. In the buffer
    of a tracker run on events whose stress level and random draw are not
    negative every click carries one, and the mean is over all the click
    events of the buffer. So a buffer whose only click has the pressure 0
    gives 1, clicks of pressure 0, 0.5 and 1 among other events give 0.75,
    and two recorded clicks of pressure 0.8 give 0.8. *)
Theorem calculateAveragePressure_spec (s : t) :
  let carried := carried_pressures (mouseEvents s) in
  (carried = [] -> calculateAveragePressure s = 1) /\
  (carried <> [] ->
   calculateAveragePressure s = sum_list carried / INR (length carried)) /\
  (forall s0 es, Forall calm es ->
     let buffer := mouseEvents (run (fresh s0) es) in
     carried_pressures buffer = click_pressures buffer /\
     (click_pressures buffer <> [] ->
      calculateAveragePressure (run (fresh s0) es)
      = sum_list (click_pressures buffer) / INR (length (click_pressures buffer)))) /\
  calculateAveragePressure (holding pressureless_buffer) = 1 /\
  calculateAveragePressure (holding mixed_buffer) = 0.75 /\
  calculateAveragePressure (run (fresh constructor) two_clicks) = 0.8.
Proof.
  cbv zeta.
  assert (Hgen : forall s', calculateAveragePressure s'
                            = match carried_pressures (mouseEvents s') with
                              | [] => 1
                              | ps => sum_list ps / INR (length ps)
                              end).
  { intros s'. rewrite calculateAveragePressure_unfold, <- carried_pressures_filter.
    destruct (pressureClickEvents s'); reflexivity. }
  assert (Hrun : forall s0 es, Forall calm es ->
            carried_pressures (mouseEvents (run (fresh s0) es))
            = click_pressures (mouseEvents (run (fresh s0) es))).
  { intros s0 es Hcalm.
    rewrite <- carried_pressures_filter, <- click_pressures_filter. f_equal.
    apply pressureClickEvents_all.
    assert (H : Forall (fun c => 0.8 <= ev_pressure c) (clickEvents (run (fresh s0) es))).
    { apply run_click_pressure; [exact Hcalm|]. constructor. }
    revert H. apply Forall_impl. intros c Hc. lra. }
  split; [|split; [|split; [|split; [|split]]]].
  - intros H. now rewrite Hgen, H.
  - intros Hne. rewrite Hgen.
    destruct (carried_pressures (mouseEvents s)); [congruence | reflexivity].
  - intros s0 es Hcalm. split; [now apply Hrun|].
    intros Hne. rewrite Hgen, (Hrun s0 es Hcalm).
    destruct (click_pressures (mouseEvents (run (fresh s0) es))); [congruence | reflexivity].
  - rewrite Hgen. unfold pressureless_buffer, carried_pressures. simpl.
    destruct (Req_dec_T 0 0); [reflexivity | congruence].
  - rewrite Hgen. unfold mixed_buffer, carried_pressures. simpl.
    destruct (Req_dec_T 0 0); [|congruence].
    destruct (Req_dec_T 0.5 0); [lra|]. destruct (Req_dec_T 1 0); [lra|].
    simpl. lra.
  - rewrite Hgen, (Hrun constructor two_clicks two_clicks_calm). simpl. lra.
Qed.

Lemma calculateAveragePressure_spec_witness :
  calculateAveragePressure (fresh constructor) = 1 /\
  calculateAveragePressure (holding mixed_buffer) = (0.5 + (1 + 0)) / INR 2 /\
  calculateAveragePressure (run (fresh constructor) two_clicks)
  = sum_list (click_pressures (mouseEvents (run (fresh constructor) two_clicks)))
    / INR (length (click_pressures (mouseEvents (run (fresh constructor) two_clicks)))) /\
  calculateAveragePressure (holding mixed_buffer) = 0.75.
Proof.
  split; [|split; [|split]].
  - apply (proj1 (calculateAveragePressure_spec (fresh constructor))). reflexivity.
  - assert (Hc : carried_pressures (mouseEvents (holding mixed_buffer)) = [0.5; 1]).
    { unfold mixed_buffer, carried_pressures. simpl.
      destruct (Req_dec_T 0 0); [|congruence].
      destruct (Req_dec_T 0.5 0); [lra|]. destruct (Req_dec_T 1 0); [lra|]. reflexivity. }
    pose proof (proj1 (proj2 (calculateAveragePressure_spec (holding mixed_buffer)))) as H.
    cbv zeta in H. rewrite Hc in H. apply H. discriminate.
  - apply (proj1 (proj2 (proj2 (calculateAveragePressure_spec constructor)))
             constructor two_clicks two_clicks_calm).
    simpl. discriminate.
  - apply (proj1 (proj2 (proj2 (proj2 (proj2 (calculateAveragePressure_spec constructor)))))).
Defined.

End MousePressure.

(** ** The point buffer of the heat map and the pointer buffer *)

Section PointBuffer.
Import StressVisualization.

Lemma lastn_length {A : Type} (n : nat) (l : list A) :
  length (lastn n l) = Nat.min n (length l).
Proof. unfold lastn. rewrite length_skipn. lia. Qed.

Lemma tl_skipn_snoc {A : Type} (k : nat) (l : list A) (a : A) :
  (k < length l)%nat -> tl (skipn k l ++ [a]) = skipn (S k) (l ++ [a]).
Proof.
  revert k. induction l as [|b l IH]; intros k Hk; simpl in Hk; [lia|].
  destruct k as [|k].
  - reflexivity.
  - simpl skipn at 1. rewrite IH by lia. reflexivity.
Qed.

(** Pushing on the window and shifting when it overflows keeps the window. *)
Lemma lastn_push {A : Type} (n : nat) (l : list A) (a : A) :
  (1 <= n)%nat ->
  lastn n (l ++ [a])
  = let pushed := lastn n l ++ [a] in
    if (n <? length pushed)%nat then shift pushed else pushed.
Proof.
  intros Hn. cbv zeta. rewrite length_app, lastn_length. simpl length.
  unfold lastn, shift. rewrite length_app. simpl length.
  destruct (Nat.ltb_spec n (Nat.min n (length l) + 1)) as [Hfull|Hroom].
  - rewrite tl_skipn_snoc by lia. f_equal. lia.
  - replace (length l + 1 - n)%nat with 0%nat by lia.
    replace (length l - n)%nat with 0%nat by lia. reflexivity.
Qed.

Lemma call_with_canvas (s : t) (c : Call) :
  hasHeatmapCanvas s = true ->
  hasHeatmapCanvas (call s c) = true /\
  maxPoints (call s c) = maxPoints s /\
  mousePoints (call s c)
  = let pushed := mousePoints s ++ [point_of c] in
    if (maxPoints s <? length pushed)%nat then shift pushed else pushed.
Proof.
  intros Hc. unfold call, addMousePoint. rewrite Hc. simpl. auto.
Qed.

Lemma call_without_canvas (s : t) (c : Call) :
  hasHeatmapCanvas s = false -> call s c = s.
Proof. intros Hc. unfold call, addMousePoint. now rewrite Hc. Qed.

(** The buffer is the window of the last 1000 points of the history. *)
Lemma run_window (cs : list Call) (s : t) (history : list HeatPoint) :
  hasHeatmapCanvas s = true ->
  maxPoints s = 1000%nat ->
  mousePoints s = lastn 1000 history ->
  mousePoints (run s cs) = lastn 1000 (history ++ map point_of cs).
Proof.
  revert s history. induction cs as [|c cs IH]; intros s history Hc Hmax Hwin.
  - simpl. now rewrite app_nil_r.
  - destruct (call_with_canvas s c Hc) as [Hc' [Hmax' Hpts]].
    change (run s (c :: cs)) with (run (call s c) cs).
    change (map point_of (c :: cs)) with ([point_of c] ++ map point_of cs).
    rewrite app_assoc. apply IH.
    + exact Hc'.
    + congruence.
    + rewrite Hpts, Hmax, Hwin. symmetry. apply lastn_push. lia.
Qed.

(** One call never takes the buffer past its capacity. *)
Lemma call_bounded (s : t) (c : Call) :
  (length (mousePoints s) <= maxPoints s)%nat ->
  (length (mousePoints (call s c)) <= maxPoints (call s c))%nat.
Proof.
  intros Hb. destruct (hasHeatmapCanvas s) eqn:Hc.
  - destruct (call_with_canvas s c Hc) as [_ [Hmax Hpts]].
    rewrite Hmax, Hpts. cbv zeta.
    destruct (Nat.ltb_spec (maxPoints s) (length (mousePoints s ++ [point_of c]))) as [Hfull|Hroom].
    + unfold shift. rewrite length_app in *. simpl length in *.
      destruct (mousePoints s ++ [point_of c]) eqn:E; simpl; [lia|].
      apply (f_equal (@length _)) in E. rewrite length_app in E. simpl in E. lia.
    + exact Hroom.
  - now rewrite call_without_canvas.
Qed.

End PointBuffer.

Section BufferClaims.
Import StressDetectionApp.

Lemma step_points_bounded (app : t) (i : Input) :
  points_bounded app -> points_bounded (step app i).
Proof.
  intros [Hmax Hlen].
  destruct i; simpl; unfold with_trackers, on_mousemove, startMonitoring, pauseMonitoring,
    resetSession, on_trackKeyboard_change, on_trackMouse_change, handleStressPrediction;
    try (split; assumption);
    repeat match goal with |- context [if ?b then _ else _] => destruct b end;
    try (split; assumption).
  split; simpl.
  - destruct (StressVisualization.hasHeatmapCanvas (visualization app)) eqn:Hc.
    + destruct (call_with_canvas _ c Hc) as [_ [Hm _]]. congruence.
    + now rewrite call_without_canvas.
  - pose proof (call_bounded (visualization app) c) as Hb.
    rewrite Hmax in Hb. specialize (Hb Hlen).
    destruct (StressVisualization.hasHeatmapCanvas (visualization app)) eqn:Hc.
    + destruct (call_with_canvas _ c Hc) as [_ [Hm _]]. rewrite Hm, Hmax in Hb. exact Hb.
    + rewrite call_without_canvas in * by exact Hc. lia.
Qed.

Lemma run_points_bounded (inputs : list Input) (app : t) :
  points_bounded app -> points_bounded (run app inputs).
Proof.
  revert app. induction inputs as [|i inputs IH]; intros app H; [exact H|].
  change (run app (i :: inputs)) with (run (step app i) inputs).
  apply IH. now apply step_points_bounded.
Qed.

Lemma tracker_buffer_grows (es : list MouseTracker.DomEvent) (s : MouseTracker.t) :
  MouseTracker.isTracking s = true ->
  length (MouseTracker.mouseEvents (MouseTracker.run s es))
  = (length (MouseTracker.mouseEvents s) + length (filter recorded es))%nat.
Proof.
  revert s. induction es as [|e es IH]; intros s Htr.
  - simpl. lia.
  - change (MouseTracker.run s (e :: es)) with (MouseTracker.run (MouseTracker.handle s e) es).
    rewrite IH by now rewrite handle_isTracking.
    destruct e; simpl;
      unfold MouseTracker.on_mousemove, MouseTracker.on_mousedown,
        MouseTracker.on_mouseup, MouseTracker.on_wheel;
      rewrite ?Htr; simpl; rewrite ?length_app; simpl; lia.
Qed.

Lemma moves_fill_pointer_buffer (n : nat) (c : StressVisualization.Call) (now : Z)
    (connecting : bool) (app : t) :
  MouseTracker.isTracking (mouseTracker app) = true ->
  length (MouseTracker.mouseEvents
            (mouseTracker (run app (repeat (Move c now connecting) n))))
  = (length (MouseTracker.mouseEvents (mouseTracker app)) + n)%nat.
Proof.
  revert app. induction n as [|n IH]; intros app Htr.
  - simpl. lia.
  - change (run app (repeat (Move c now connecting) (S n)))
      with (run (step app (Move c now connecting)) (repeat (Move c now connecting) n)).
    rewrite IH.
    + simpl. unfold MouseTracker.on_mousemove. rewrite Htr. simpl.
      rewrite length_app. simpl. lia.
    + simpl. unfold MouseTracker.on_mousemove. now rewrite Htr.
Qed.

(** C1, as stated, fails: after 1001 recorded moves the pointer event buffer
    of the tracker holds 1001 events. *)
Lemma pointer_buffer_exceeds_capacity :
  ~ (length (MouseTracker.mouseEvents
               (mouseTracker (run (constructor true true true) long_session))) <= 1000)%nat.
Proof.
  unfold long_session.
  change (run (constructor true true true)
            (ClickStart 0 0 true true :: repeat (Move a_move 1 false) 1001))
    with (run (step (constructor true true true) (ClickStart 0 0 true true))
              (repeat (Move a_move 1 false) 1001)).
  rewrite moves_fill_pointer_buffer by reflexivity.
  simpl length. lia.
Qed.

(** C1 (amended): the buffer that holds at most the 1000 most recent entries
    is the point buffer of the heat map: after any calls of [addMousePoint]
    it is the last 1000 points pushed, the oldest leaving first, and in every
    state the application reaches its length is at most 1000. The pointer
    event buffer of the tracker has no capacity: while tracking it grows by
    one with every move, click and wheel event. *)
Theorem heatmap_points_bounded :
  (forall cs : list StressVisualization.Call,
     StressVisualization.mousePoints
       (StressVisualization.run (StressVisualization.constructor true) cs)
     = lastn 1000 (map StressVisualization.point_of cs)) /\
  (forall (canvasFound chartFound listFound : bool) (inputs : list Input),
     (length (StressVisualization.mousePoints
                (visualization (run (constructor canvasFound chartFound listFound) inputs))) <= 1000)%nat) /\
  (forall (s : MouseTracker.t) (es : list MouseTracker.DomEvent),
     MouseTracker.isTracking s = true ->
     length (MouseTracker.mouseEvents (MouseTracker.run s es))
     = (length (MouseTracker.mouseEvents s) + length (filter recorded es))%nat).
Proof.
  split; [|split].
  - intros cs.
    exact (run_window cs (StressVisualization.constructor true) [] eq_refl eq_refl eq_refl).
  - intros canvasFound chartFound listFound inputs.
    apply (run_points_bounded inputs (constructor canvasFound chartFound listFound)).
    split; simpl; [reflexivity | lia].
  - intros s es Htr. now apply tracker_buffer_grows.
Qed.

Lemma heatmap_points_bounded_witness :
  length (MouseTracker.mouseEvents
            (MouseTracker.run (fresh MouseTracker.constructor)
               [MouseTracker.MouseMove 1 1 0; MouseTracker.MouseUp 0 1 1 2;
                MouseTracker.Wheel 0 3 4]))
  = 2%nat.
Proof.
  apply (proj2 (proj2 heatmap_points_bounded) (fresh MouseTracker.constructor)).
  reflexivity.
Defined.

End BufferClaims.

(** ** Pause and start *)

Section LifeCycleClaims.
Import StressDetectionApp.

(** C2, as stated, fails: the paused session holds one key event, and after
    the next start the key buffer is empty. *)
Lemma resume_clears_data :
  length (data_keyEvents (session_data paused_session)) = 1%nat /\
  session_data (step paused_session (ClickStart 100 100 true true))
  <> session_data paused_session.
Proof.
  split; [reflexivity|].
  intros H. apply (f_equal (fun d => length (data_keyEvents d))) in H.
  simpl in H. discriminate.
Qed.

(** C2 (amended): [pauseMonitoring] keeps the buffers and the counters, and
    the [startMonitoring] that follows it does not: it empties the buffer and
    zeroes the counters of each tracker whose settings box is checked, from
    the paused state exactly as from any other state in which monitoring is
    not active, the code keeping one flag for both. A tracker whose box is
    unchecked keeps its data, and [startMonitoring] changes nothing only
    while monitoring is active. *)
Theorem startMonitoring_after_pause (app : t) (now nowKb : Z) :
  let paused := pauseMonitoring app in
  session_data paused = session_data app /\
  session_data (startMonitoring now nowKb true true paused) = no_data /\
  session_data (startMonitoring now nowKb true true (resetSession app)) = no_data /\
  session_data (startMonitoring now nowKb false false paused) = session_data app /\
  (forall trackKeyboard trackMouse,
     isMonitoring app = true ->
     startMonitoring now nowKb trackKeyboard trackMouse app = app) /\
  (forall trackKeyboard trackMouse,
     session_data (startMonitoring now nowKb trackKeyboard trackMouse paused)
     = data_after_start trackKeyboard trackMouse (session_data app)) /\
  (forall trackKeyboard trackMouse,
     isMonitoring app = false ->
     session_data (startMonitoring now nowKb trackKeyboard trackMouse app)
     = data_after_start trackKeyboard trackMouse (session_data app)).
Proof.
  cbv zeta. unfold pauseMonitoring, resetSession, startMonitoring, session_data.
  destruct (isMonitoring app) eqn:Hm; simpl; rewrite ?Hm; simpl;
    repeat split; try reflexivity; intros; try discriminate;
    destruct trackKeyboard, trackMouse; reflexivity.
Qed.

(** After [resetSession], a start with the mouse box checked leaves the mouse
    tracker reset and started. *)
Lemma fresh_after_resetSession (app : t) (now nowKb : Z) (trackKeyboard : bool) :
  mouseTracker (startMonitoring now nowKb trackKeyboard true (resetSession app))
  = fresh (mouseTracker app).
Proof. reflexivity. Qed.

Lemma startMonitoring_after_pause_witness :
  let key_only := startMonitoring 100 100 true false (pauseMonitoring active_session) in
  let mouse_only := startMonitoring 100 100 false true (pauseMonitoring active_session) in
  (length (data_keyEvents (session_data active_session)) = 1%nat /\
   length (data_mouseEvents (session_data active_session)) = 1%nat) /\
  (data_keyEvents (session_data key_only) = [] /\
   data_mouseEvents (session_data key_only) = data_mouseEvents (session_data active_session) /\
   data_clickCount (session_data key_only) = 1%Z) /\
  (data_mouseEvents (session_data mouse_only) = [] /\
   data_keyEvents (session_data mouse_only) = data_keyEvents (session_data active_session) /\
   data_totalKeyPresses (session_data mouse_only) = 1%Z) /\
  session_data (startMonitoring 100 100 true true (pauseMonitoring active_session)) = no_data
  /\ startMonitoring 7 7 true true active_session = active_session.
Proof.
  cbv zeta.
  pose proof (startMonitoring_after_pause active_session 100 100)
    as [_ [Hboth [_ [_ [_ [Hpaused _]]]]]].
  pose proof (startMonitoring_after_pause active_session 7 7)
    as [_ [_ [_ [_ [Hactive _]]]]].
  split; [split; reflexivity|].
  split; [rewrite (Hpaused true false); repeat split; reflexivity|].
  split; [rewrite (Hpaused false true); repeat split; reflexivity|].
  split; [exact Hboth|].
  apply Hactive. reflexivity.
Defined.

End LifeCycleClaims.

(** * Further properties of the code *)

(** ** Invariants of the application *)

Section AppInvariant.
Import StressDetectionApp.

Variable P : t -> Prop.
Hypothesis P_step : forall app i, P app -> P (step app i).

(** A property every input preserves holds after every run. *)
Lemma run_invariant (inputs : list Input) (app : t) : P app -> P (run app inputs).
Proof.
  revert app. induction inputs as [|i inputs IH]; intros app H; [exact H|].
  change (run app (i :: inputs)) with (run (step app i) inputs).
  apply IH, P_step, H.
Qed.

End AppInvariant.

Section KeyboardCounters.
Import KeyboardTracker.

Lemma keyDownEvents_on_keydown (k c : string) (now : Z) (s : t) :
  isTracking s = true ->
  keyDownEvents (on_keydown k c now s)
  = keyDownEvents s
    ++ [{| key := k; code := c; timestamp := now; eventType := keydown;
           pressure := Some 1 |}].
Proof.
  intros Htr. unfold on_keydown, keyDownEvents. rewrite Htr. simpl.
  now rewrite filter_app.
Qed.

Lemma keyDownEvents_on_keyup (k c : string) (now : Z) (s : t) :
  keyDownEvents (on_keyup k c now s) = keyDownEvents s.
Proof.
  unfold on_keyup, keyDownEvents. destruct (isTracking s); simpl; [|reflexivity].
  rewrite filter_app. simpl. now rewrite app_nil_r.
Qed.

Lemma handle_key_counters (s : t) (e : DomEvent) :
  key_counters_agree s -> key_counters_agree (handle s e).
Proof.
  intros [Htotal Hback]. destruct e as [k c now | k c now]; simpl handle.
  - destruct (isTracking s) eqn:Htr.
    + unfold key_counters_agree. rewrite keyDownEvents_on_keydown by exact Htr.
      unfold on_keydown. rewrite Htr. simpl.
      rewrite filter_app, !length_app. simpl length. unfold is_correction at 2. simpl.
      destruct (String.eqb k "Backspace" || String.eqb k "Delete")%bool; simpl; lia.
    + unfold on_keydown. rewrite Htr. simpl. now split.
  - unfold key_counters_agree. rewrite keyDownEvents_on_keyup.
    unfold on_keyup. destruct (isTracking s); simpl; now split.
Qed.

Lemma startTracking_key_counters (now : Z) (s : t) :
  key_counters_agree (startTracking now s).
Proof. split; reflexivity. Qed.

Lemma stopTracking_key_counters (s : t) :
  key_counters_agree s -> key_counters_agree (stopTracking s).
Proof. intros H. exact H. Qed.

Lemma reset_key_counters (s : t) : key_counters_agree (reset s).
Proof. split; reflexivity. Qed.

(** With agreeing counters the ratio of corrections lies between 0 and 1. *)
Lemma backspaceRatio_bounds (s : t) :
  key_counters_agree s -> 0 <= backspaceRatio s <= 1.
Proof.
  intros [Htotal Hback]. unfold backspaceRatio, Js.Math_max.
  pose proof (filter_length_le is_correction (keyDownEvents s)) as Hle.
  set (n := length (keyDownEvents s)) in *.
  set (m := length (filter is_correction (keyDownEvents s))) in *.
  rewrite Htotal, Hback, <- !INR_IZR_INZ.
  assert (Hm : 0 <= INR m) by apply pos_INR.
  assert (Hmn : INR m <= INR n) by now apply le_INR.
  assert (Hmax : INR m <= Rmax (INR n) 1 /\ 0 < Rmax (INR n) 1).
  { split.
    - apply Rle_trans with (INR n); [exact Hmn | apply Rmax_l].
    - apply Rlt_le_trans with 1; [lra | apply Rmax_r]. }
  destruct Hmax as [Hle' Hpos].
  split.
  - apply Rmult_le_pos; [exact Hm|]. left. now apply Rinv_0_lt_compat.
  - apply (Rmult_le_reg_r (Rmax (INR n) 1)); [exact Hpos|].
    unfold Rdiv. rewrite Rmult_assoc, Rinv_l by lra. lra.
Qed.

End KeyboardCounters.

Section KeyboardReachable.
Import StressDetectionApp.

Lemma step_key_counters (app : t) (i : Input) :
  key_counters_agree (keyboardTracker app) ->
  key_counters_agree (keyboardTracker (step app i)).
Proof.
  intros H.
  destruct i; simpl; unfold startMonitoring, pauseMonitoring,
    on_trackKeyboard_change, on_trackMouse_change;
    repeat match goal with |- context [if ?b then _ else _] => destruct b end;
    simpl;
    first [ exact H
          | now apply handle_key_counters
          | split; reflexivity ].
Qed.

Lemma reachable_key_counters (canvasFound chartFound listFound : bool) (inputs : list Input) :
  key_counters_agree (keyboardTracker (run (constructor canvasFound chartFound listFound) inputs)).
Proof.
  apply (run_invariant (fun app => key_counters_agree (keyboardTracker app))).
  - apply step_key_counters.
  - split; reflexivity.
Qed.

(** X1: in every state the application reaches, whatever keys, pointer
    events, button clicks, box changes and predictions came before,
    [totalKeyPresses] is the number of key-down events in the key buffer and
    [backspaceCount] the number of those on the Backspace or Delete key. *)
Theorem key_counters_count_buffer (canvasFound chartFound listFound : bool) (inputs : list Input) :
  let k := keyboardTracker (run (constructor canvasFound chartFound listFound) inputs) in
  KeyboardTracker.totalKeyPresses k
  = Z.of_nat (length (KeyboardTracker.keyDownEvents k)) /\
  KeyboardTracker.backspaceCount k
  = Z.of_nat (length (filter is_correction (KeyboardTracker.keyDownEvents k))) /\
  (0 <= KeyboardTracker.backspaceCount k <= KeyboardTracker.totalKeyPresses k)%Z.
Proof.
  cbv zeta. destruct (reachable_key_counters canvasFound chartFound listFound inputs) as [Ht Hb].
  split; [exact Ht|]. split; [exact Hb|].
  rewrite Ht, Hb.
  pose proof (filter_length_le is_correction
                (KeyboardTracker.keyDownEvents
                   (keyboardTracker (run (constructor canvasFound chartFound listFound) inputs)))).
  lia.
Qed.

(** X2: in every state the application reaches the backspace ratio lies
    between 0 and 1 and [calculateKeyPressVariance] between 0 and 0.3. *)
Theorem backspace_ratio_in_unit_interval (canvasFound chartFound listFound : bool) (inputs : list Input) :
  let k := keyboardTracker (run (constructor canvasFound chartFound listFound) inputs) in
  0 <= KeyboardTracker.backspaceRatio k <= 1 /\
  0 <= KeyboardTracker.calculateKeyPressVariance k <= 0.3.
Proof.
  cbv zeta.
  pose proof (backspaceRatio_bounds _ (reachable_key_counters canvasFound chartFound listFound inputs)) as Hr.
  split; [exact Hr|].
  unfold KeyboardTracker.calculateKeyPressVariance.
  destruct (length _ <? 2)%nat; cbv zeta; lra.
Qed.

(** X3: in every state the application reaches, the error rate shown is a
    whole number of per cent between 0 and 100, the width of the error bar
    lies between 0 and 100, and the bar is full exactly when the backspace
    ratio has reached 0.2. *)
Theorem error_display_bounds (canvasFound chartFound listFound : bool) (inputs : list Input) :
  let stats :=
    KeyboardTrackerUI.getStats (keyboardTracker (run (constructor canvasFound chartFound listFound) inputs)) in
  (exists z : Z, KeyboardTrackerUI.errorRate stats = IZR z /\ (0 <= z <= 100)%Z) /\
  0 <= KeyboardTrackerUI.errorBarWidth stats <= 100 /\
  (KeyboardTrackerUI.errorBarWidth stats = 100
   <-> 0.2 <= KeyboardTrackerUI.backspaceRatio stats).
Proof.
  cbv zeta.
  pose proof (backspaceRatio_bounds _ (reachable_key_counters canvasFound chartFound listFound inputs)) as Hr.
  unfold KeyboardTrackerUI.errorRate, KeyboardTrackerUI.errorBarWidth,
    KeyboardTrackerUI.getStats, Js.Math_min. simpl.
  fold (KeyboardTracker.backspaceRatio
          (keyboardTracker (run (constructor canvasFound chartFound listFound) inputs))).
  set (r := KeyboardTracker.backspaceRatio _) in *.
  split; [|split].
  - exists (Zfloor (r * 100 + / 2)). split; [reflexivity|].
    assert (H0 : (Zfloor (0 + / 2) <= Zfloor (r * 100 + / 2))%Z) by (apply Zfloor_le; lra).
    assert (H1 : (Zfloor (r * 100 + / 2) <= Zfloor (100 + / 2))%Z) by (apply Zfloor_le; lra).
    rewrite (Zfloor_eq 0 (0 + / 2)) in H0 by lra.
    rewrite (Zfloor_eq 100 (100 + / 2)) in H1 by lra. lia.
  - unfold Rmin. destruct (Rle_dec (r * 5) 1); lra.
  - unfold Rmin. destruct (Rle_dec (r * 5) 1); split; intros; lra.
Qed.

End KeyboardReachable.

(** ** The typing speed *)

Section TypingSpeedFacts.
Import KeyboardTracker.

Lemma handle_key_isTracking (s : t) (e : DomEvent) :
  isTracking (handle s e) = isTracking s.
Proof.
  destruct e; simpl; unfold on_keydown, on_keyup; destruct (isTracking s) eqn:E;
    simpl; congruence.
Qed.

(** The key-down events of the buffer after a run. *)
Lemma keyDownEvents_run (es : list DomEvent) (s : t) :
  keyDownEvents (run s es)
  = keyDownEvents s ++ (if isTracking s then recorded_downs es else []).
Proof.
  revert s. induction es as [|e es IH]; intros s.
  - simpl. destruct (isTracking s); now rewrite app_nil_r.
  - change (run s (e :: es)) with (run (handle s e) es).
    rewrite IH, handle_key_isTracking.
    destruct e as [k c now | k c now]; simpl handle.
    + destruct (isTracking s) eqn:Htr.
      * rewrite keyDownEvents_on_keydown by exact Htr.
        now rewrite <- app_assoc.
      * unfold on_keydown. now rewrite Htr.
    + rewrite keyDownEvents_on_keyup. reflexivity.
Qed.

Lemma recorded_downs_filter (es : list DomEvent) :
  recorded_downs (filter is_KeyDown es) = recorded_downs es.
Proof.
  induction es as [|e es IH]; [reflexivity|].
  destruct e; simpl; [f_equal|]; exact IH.
Qed.

(** The speed is a function of the key-down events of the buffer. *)
Lemma calculateTypingSpeed_downs (s1 s2 : t) :
  keyDownEvents s1 = keyDownEvents s2 ->
  calculateTypingSpeed s1 = calculateTypingSpeed s2.
Proof.
  intros H.
  destruct (Nat.lt_ge_cases (length (keyDownEvents s1)) 2) as [Hlt|Hge].
  - rewrite (calculateTypingSpeed_few s1) by exact Hlt.
    rewrite (calculateTypingSpeed_few s2) by (rewrite <- H; exact Hlt). reflexivity.
  - rewrite (calculateTypingSpeed_unfold s1) by exact Hge.
    rewrite (calculateTypingSpeed_unfold s2) by (rewrite <- H; exact Hge).
    now rewrite H.
Qed.

(** X4: key releases never change the typing speed: after any run of key
    events the speed is what it would be had the key-up events not been
    delivered at all. *)
Theorem typing_speed_ignores_releases (s : t) (es : list DomEvent) :
  calculateTypingSpeed (run s es) = calculateTypingSpeed (run s (filter is_KeyDown es)).
Proof.
  apply calculateTypingSpeed_downs.
  now rewrite !keyDownEvents_run, recorded_downs_filter.
Qed.

(** X5: when the first key-down event of the buffer is not later than the
    last, the typing speed is a whole number that is not negative, the width
    of the typing bar lies between 0 and 100, and the bar is full exactly
    from 120 words per minute on. *)
Theorem typing_display_bounds (s : t) :
  (date_at (keyDownEvents s) 0
   <= date_at (keyDownEvents s) (length (keyDownEvents s) - 1))%Z ->
  let stats := KeyboardTrackerUI.getStats s in
  (exists z : Z, KeyboardTrackerUI.typingSpeed stats = IZR z /\ (0 <= z)%Z) /\
  0 <= KeyboardTrackerUI.normalizedSpeed stats <= 100 /\
  (KeyboardTrackerUI.normalizedSpeed stats = 100
   <-> 120 <= KeyboardTrackerUI.typingSpeed stats).
Proof.
  intros Hord. cbv zeta.
  pose proof (calculateTypingSpeed_nonneg s Hord) as Hnn.
  unfold KeyboardTrackerUI.normalizedSpeed, KeyboardTrackerUI.getStats, Js.Math_min.
  simpl.
  split; [|split].
  - assert (Hz : exists z : Z, calculateTypingSpeed s = IZR z).
    { unfold calculateTypingSpeed, Js.Math_round.
      repeat match goal with |- context [if ?b then _ else _] => destruct b end;
        cbv zeta; first [now exists 0%Z | eexists; reflexivity]. }
    destruct Hz as [z Hz]. exists z. split; [exact Hz|].
    rewrite Hz in Hnn. now apply le_IZR.
  - unfold Rmin. destruct (Rle_dec (calculateTypingSpeed s / 120) 1); lra.
  - unfold Rmin. destruct (Rle_dec (calculateTypingSpeed s / 120) 1); split; intros; lra.
Qed.

Lemma typing_display_bounds_witness :
  0 <= KeyboardTrackerUI.normalizedSpeed
         (KeyboardTrackerUI.getStats (run (startTracking 0 constructor) hello_with_releases))
    <= 100.
Proof.
  apply (typing_display_bounds (run (startTracking 0 constructor) hello_with_releases)).
  unfold hello_with_releases, keyDownEvents, date_at. simpl. lia.
Defined.

End TypingSpeedFacts.

(** ** The counters of the mouse tracker *)

Section MouseCounters.
Import MouseTracker.

Lemma dist_nonneg (p q : Point) : 0 <= dist p q.
Proof. unfold dist. apply sqrt_pos. Qed.

Lemma counted_length_nonneg (ps : list Point) (p : Point) : 0 <= counted_length p ps.
Proof.
  revert p. induction ps as [|q ps IH]; intros p; simpl; [lra|].
  specialize (IH q). pose proof (dist_nonneg p q).
  destruct (is_origin p); lra.
Qed.

Lemma run_not_tracking (es : list DomEvent) (s : t) :
  isTracking s = false -> run s es = s.
Proof.
  intros Htr. induction es as [|e es IH]; [reflexivity|].
  change (run s (e :: es)) with (run (handle s e) es).
  replace (handle s e) with s; [exact IH|].
  destruct e; simpl; unfold on_mousemove, on_mousedown, on_mouseup, on_wheel;
    now rewrite ?Htr.
Qed.

Lemma handle_mouse_counters (s : t) (e : DomEvent) :
  mouse_counters_agree s -> mouse_counters_agree (handle s e).
Proof.
  intros [Hc Hd]. destruct (isTracking s) eqn:Htr.
  - destruct e as [cx cy now | b cx cy now st rnd | b cx cy now | dx dy now].
    + split.
      * simpl. unfold on_mousemove, clickEvents. rewrite Htr. simpl.
        rewrite filter_app. simpl. now rewrite app_nil_r.
      * destruct (on_mousemove_totalDistance s cx cy now Htr) as [H _].
        simpl handle. rewrite H.
        pose proof (dist_nonneg (lastMousePosition s) {| x := cx; y := cy |}).
        destruct (is_origin (lastMousePosition s)); lra.
    + simpl. unfold on_mousedown, mouse_counters_agree, clickEvents. rewrite Htr. simpl.
      rewrite filter_app, length_app. simpl. unfold clickEvents in Hc. split; [lia|exact Hd].
    + simpl. unfold on_mouseup. now split.
    + simpl. unfold on_wheel, mouse_counters_agree, clickEvents. rewrite Htr. simpl.
      rewrite filter_app. simpl. rewrite app_nil_r. now split.
  - replace (handle s e) with s; [now split|].
    destruct e; simpl; unfold on_mousemove, on_mousedown, on_mouseup, on_wheel;
      now rewrite ?Htr.
Qed.

(** Every event of the buffer is a move, a click or a wheel event. *)
Lemma buffer_partition (l : list MouseEvent) :
  length l
  = (length (filter (fun e => EventType_eqb (eventType e) move) l)
     + length (filter (fun e => EventType_eqb (eventType e) click) l)
     + length (filter (fun e => EventType_eqb (eventType e) scroll) l))%nat.
Proof.
  induction l as [|e l IH]; [reflexivity|].
  destruct e; simpl; lia.
Qed.

(** X7: pointer events never make the running distance smaller, whether
    the tracker is tracking or not. *)
Theorem totalDistance_never_decreases (s : t) (es : list DomEvent) :
  totalDistance s <= totalDistance (run s es).
Proof.
  destruct (isTracking s) eqn:Htr.
  - destruct (run_totalDistance es s Htr) as [H _]. rewrite H.
    pose proof (counted_length_nonneg (move_positions es) (lastMousePosition s)). lra.
  - rewrite run_not_tracking by exact Htr. lra.
Qed.

(** The randomness lies between 0 and 1 in every state. *)
Lemma calculateMouseRandomness_range (s : t) : 0 <= calculateMouseRandomness s <= 1.
Proof.
  destruct (Nat.lt_ge_cases (length (moveEvents s)) 3) as [Hlt|Hge].
  - rewrite calculateMouseRandomness_few by exact Hlt. lra.
  - rewrite calculateMouseRandomness_unfold by exact Hge.
    destruct (triple_angles (moveEvents s)) as [|a angles]; [lra|].
    pose proof (population_variance_nonneg (a :: angles)) as Hv.
    split; [apply Rmin_glb; lra | apply Rmin_r].
Qed.

End MouseCounters.

Section MouseReachable.
Import StressDetectionApp.

Lemma step_mouse_counters (app : t) (i : Input) :
  mouse_counters_agree (mouseTracker app) ->
  mouse_counters_agree (mouseTracker (step app i)).
Proof.
  intros H.
  destruct i; simpl; unfold startMonitoring, pauseMonitoring,
    on_trackKeyboard_change, on_trackMouse_change;
    repeat match goal with |- context [if ?b then _ else _] => destruct b end;
    simpl;
    first [ exact H
          | exact (handle_mouse_counters _ (MouseTracker.MouseMove _ _ _) H)
          | exact (handle_mouse_counters _ (MouseTracker.MouseDown _ _ _ _ _ _) H)
          | exact (handle_mouse_counters _ (MouseTracker.Wheel _ _ _) H)
          | split; [reflexivity | simpl; lra] ].
Qed.

Lemma reachable_mouse_counters (canvasFound chartFound listFound : bool) (inputs : list Input) :
  mouse_counters_agree (mouseTracker (run (constructor canvasFound chartFound listFound) inputs)).
Proof.
  apply (run_invariant (fun app => mouse_counters_agree (mouseTracker app))).
  - apply step_mouse_counters.
  - split; [reflexivity | simpl; lra].
Qed.

(** X6: in every state the application reaches, [clickCount] is the number
    of click events in the pointer buffer, the running distance is not
    negative, and the numbers [getStats] reports add up: the move count, the
    click total and the number of wheel events make the length of the
    buffer. *)
Theorem mouse_counters_count_buffer (canvasFound chartFound listFound : bool) (inputs : list Input) :
  let m := mouseTracker (run (constructor canvasFound chartFound listFound) inputs) in
  let stats := MouseTrackerUI.getStats m in
  MouseTracker.clickCount m = Z.of_nat (length (MouseTracker.clickEvents m)) /\
  0 <= MouseTracker.totalDistance m /\
  (Z.of_nat (length (MouseTracker.mouseEvents m))
   = Z.of_nat (MouseTrackerUI.moveCount stats) + MouseTrackerUI.totalClicks stats
     + Z.of_nat (length (scrollEvents m)))%Z.
Proof.
  cbv zeta. destruct (reachable_mouse_counters canvasFound chartFound listFound inputs) as [Hc Hd].
  split; [exact Hc|]. split; [exact Hd|].
  simpl. rewrite Hc.
  rewrite (buffer_partition (MouseTracker.mouseEvents
             (mouseTracker (run (constructor canvasFound chartFound listFound) inputs)))) at 1.
  unfold MouseTracker.moveEvents, MouseTracker.clickEvents, scrollEvents. lia.
Qed.

(** X8: whatever the tracker holds, the width of the randomness bar lies
    between 0 and 100 per cent. *)
Theorem mouse_display_bounds (s : MouseTracker.t) :
  0 <= MouseTrackerUI.mouseBarWidth (MouseTrackerUI.getStats s) <= 100.
Proof.
  unfold MouseTrackerUI.mouseBarWidth, MouseTrackerUI.getStats. simpl.
  pose proof (calculateMouseRandomness_range s). lra.
Qed.

(** X21: with nothing in the buffers, as after a start or a reset, the
    trackers report their defaults: typing speed 0 and key-press variance 0;
    randomness 0.1, click frequency 0, average pressure 1 and no move. *)
Theorem empty_buffers_report_defaults (k : KeyboardTracker.t) (m : MouseTracker.t) :
  KeyboardTracker.keyEvents k = [] ->
  MouseTracker.mouseEvents m = [] ->
  KeyboardTrackerUI.typingSpeed (KeyboardTrackerUI.getStats k) = 0 /\
  KeyboardTrackerUI.keyPressVariance (KeyboardTrackerUI.getStats k) = 0 /\
  MouseTrackerUI.mouseRandomness (MouseTrackerUI.getStats m) = 0.1 /\
  MouseTrackerUI.clickFrequency (MouseTrackerUI.getStats m) = 0 /\
  MouseTrackerUI.averagePressure (MouseTrackerUI.getStats m) = 1 /\
  MouseTrackerUI.moveCount (MouseTrackerUI.getStats m) = 0%nat.
Proof.
  intros Hk Hm. simpl.
  unfold KeyboardTracker.calculateTypingSpeed, KeyboardTracker.calculateKeyPressVariance,
    MouseTracker.calculateMouseRandomness, MouseTracker.calculateClickFrequency,
    MouseTracker.calculateAveragePressure, MouseTracker.pressureClickEvents,
    MouseTracker.moveEvents.
  rewrite Hk, Hm. simpl. repeat split; try reflexivity. lra.
Qed.

Lemma empty_buffers_report_defaults_witness :
  MouseTrackerUI.mouseRandomness
    (MouseTrackerUI.getStats
       (mouseTracker (resetSession (run (constructor true true true) long_session)))) = 0.1.
Proof.
  apply (empty_buffers_report_defaults
           (keyboardTracker (resetSession (run (constructor true true true) long_session)))
           (mouseTracker (resetSession (run (constructor true true true) long_session))));
    reflexivity.
Defined.

End MouseReachable.

(** ** The randomness as a function of the path *)

Section PathFacts.
Import MouseTracker.

Lemma map_eq_Forall2 {A B C : Type} (f : A -> C) (g : B -> C) (l : list A) (l' : list B) :
  map f l = map g l' -> Forall2 (fun a b => f a = g b) l l'.
Proof.
  revert l'. induction l as [|a l IH]; intros [|b l'] H; simpl in H;
    try discriminate; constructor.
  - now injection H.
  - apply IH. now injection H.
Qed.

(** Triples of events that give the same angles give the same list. *)
Lemma triple_angles_related {B : Type} (rel : MouseEvent -> B -> Prop)
    (angle : B -> B -> B -> list R) (angles : list B -> list R) :
  (forall l, angles l = match l with
                        | a :: (b :: c :: _) as rest => angle a b c ++ angles rest
                        | _ => []
                        end) ->
  (forall a b c a' b' c', rel a a' -> rel b b' -> rel c c' ->
                          angle_between a b c = angle a' b' c') ->
  forall l l', Forall2 rel l l' -> triple_angles l = angles l'.
Proof.
  intros Hunfold Hangle l. induction l as [|a l IH]; intros l' H.
  - inversion H; subst. now rewrite Hunfold.
  - inversion H as [|? a' ? l1 Ha Hl]; subst.
    inversion Hl as [|b b' l2 l3 Hb Hl2]; subst.
    + now rewrite Hunfold.
    + inversion Hl2 as [|c c' l4 l5 Hc Hl4]; subst.
      * now rewrite Hunfold.
      * rewrite (Hunfold (a' :: b' :: c' :: l5)).
        change (triple_angles (a :: b :: c :: l4))
          with (angle_between a b c ++ triple_angles (b :: c :: l4)).
        rewrite (Hangle _ _ _ _ _ _ Ha Hb Hc). f_equal. now apply IH.
Qed.

Lemma triple_angles_unfold (l : list MouseEvent) :
  triple_angles l = match l with
                    | a :: (b :: c :: _) as rest => angle_between a b c ++ triple_angles rest
                    | _ => []
                    end.
Proof. destruct l as [|a [|b [|c rest]]]; reflexivity. Qed.

(** X9: the randomness is a function of the path alone: two buffers whose
    move events visit the same positions in the same order have the same
    randomness, whatever clicks and wheel events lie between the moves and
    whatever their times and speeds. *)
Theorem randomness_depends_on_path (s1 s2 : t) :
  path s1 = path s2 -> calculateMouseRandomness s1 = calculateMouseRandomness s2.
Proof.
  intros H.
  assert (Hlen : length (moveEvents s1) = length (moveEvents s2)).
  { apply (f_equal (@length _)) in H. unfold path in H. now rewrite !length_map in H. }
  assert (Hangles : triple_angles (moveEvents s1) = triple_angles (moveEvents s2)).
  { apply (triple_angles_related (fun e e' => position e = position e') angle_between
             triple_angles triple_angles_unfold).
    - intros a b c a' b' c' Ha Hb Hc. unfold position in *.
      injection Ha as Hax Hay. injection Hb as Hbx Hby. injection Hc as Hcx Hcy.
      unfold angle_between. now rewrite Hax, Hay, Hbx, Hby, Hcx, Hcy.
    - apply map_eq_Forall2. exact H. }
  destruct (Nat.lt_ge_cases (length (moveEvents s1)) 3) as [Hlt|Hge].
  - rewrite !calculateMouseRandomness_few by lia. reflexivity.
  - rewrite !calculateMouseRandomness_unfold by lia. now rewrite Hangles.
Qed.

Lemma randomness_depends_on_path_witness :
  calculateMouseRandomness (run (fresh constructor) diagonal_drag)
  = calculateMouseRandomness
      (run (fresh constructor) [MouseMove 1 1 3; MouseMove 2 2 4; MouseMove 4 4 8;
                                MouseMove 7 7 9]).
Proof.
  apply randomness_depends_on_path. reflexivity.
Defined.

End PathFacts.

(** ** Click frequency and movement speed *)

Section FrequencyAndSpeed.
Import MouseTracker.

Lemma calculateClickFrequency_unfold (s : t) :
  (2 <= length (clickEvents s))%nat ->
  calculateClickFrequency s =
  let clicks := clickEvents s in
  let span :=
    IZR (nth (length clicks - 1) (map ev_timestamp clicks) 0%Z
         - nth 0 (map ev_timestamp clicks) 0%Z) / 1000 in
  if Js.strict_eq span 0 then 0 else INR (length clicks) / span.
Proof.
  intros H. unfold calculateClickFrequency, Js.length_num.
  pose proof (filter_length_le (fun e => EventType_eqb (eventType e) click) (mouseEvents s)) as Hle.
  fold (clickEvents s) in Hle.
  destruct (Nat.ltb_spec (length (mouseEvents s)) 2) as [Hlt|_]; [lia|].
  destruct (Nat.ltb_spec (length (clickEvents s)) 2) as [Hlt|_]; [lia|].
  reflexivity.
Qed.

Lemma calculateClickFrequency_few (s : t) :
  (length (clickEvents s) < 2)%nat -> calculateClickFrequency s = 0.
Proof.
  intros H. unfold calculateClickFrequency.
  destruct (Nat.ltb_spec (length (mouseEvents s)) 2) as [_|_]; [reflexivity|].
  destruct (Nat.ltb_spec (length (clickEvents s)) 2) as [_|Hge]; [reflexivity|lia].
Qed.

(** X12: [calculateClickFrequency] is 0 with fewer than two click events in
    the buffer or when the first and the last click carry the same time;
    otherwise it is the number of clicks, both ends counted, divided by the
    seconds between the first and the last; it is not negative when the
    first click is not later than the last. *)
Theorem calculateClickFrequency_spec (s : t) :
  let clicks := clickEvents s in
  let first := nth 0 (map ev_timestamp clicks) 0%Z in
  let last := nth (length clicks - 1) (map ev_timestamp clicks) 0%Z in
  ((length clicks < 2)%nat \/ last = first -> calculateClickFrequency s = 0) /\
  ((2 <= length clicks)%nat -> last <> first ->
   calculateClickFrequency s = INR (length clicks) / (IZR (last - first) / 1000)) /\
  ((first <= last)%Z -> 0 <= calculateClickFrequency s).
Proof.
  cbv zeta.
  set (first := nth 0 _ 0%Z). set (last := nth (length (clickEvents s) - 1) _ 0%Z).
  assert (Hspan : last <> first -> IZR (last - first) / 1000 <> 0).
  { intros Hne Hz. apply Hne.
    assert (H0 : IZR (last - first) = 0) by lra.
    apply eq_IZR in H0. lia. }
  destruct (Nat.lt_ge_cases (length (clickEvents s)) 2) as [Hlt|Hge].
  - rewrite calculateClickFrequency_few by exact Hlt.
    split; [reflexivity|]. split; [lia | lra].
  - rewrite calculateClickFrequency_unfold by exact Hge. cbv zeta.
    fold first. fold last.
    split; [|split].
    + intros [Hfew| ->]; [lia|]. rewrite strict_eq_true; [reflexivity|].
      rewrite Z.sub_diag. lra.
    + intros _ Hne. now rewrite strict_eq_false by auto.
    + intros Hord.
      destruct (strict_eq_spec (IZR (last - first) / 1000) 0) as [_|Hnz]; [lra|].
      assert (0 <= IZR (last - first)) by (apply IZR_le; lia).
      assert (0 < IZR (last - first) / 1000) by lra.
      apply Rmult_le_pos; [apply pos_INR|]. left. now apply Rinv_0_lt_compat.
Qed.

Lemma calculateClickFrequency_spec_witness :
  calculateClickFrequency double_click = INR 2 / (IZR (1000 - 0) / 1000).
Proof.
  apply (proj1 (proj2 (calculateClickFrequency_spec double_click))).
  - simpl. lia.
  - simpl. discriminate.
Defined.

Lemma calculateMovementSpeed_nonneg (s : t) (cx cy : R) (now : Z) :
  match lastMouseMoveTime s with Some t0 => (t0 <= now)%Z | None => True end ->
  0 <= calculateMovementSpeed s cx cy now.
Proof.
  intros H. unfold calculateMovementSpeed.
  destruct (lastMouseMoveTime s) as [t0|]; [|lra].
  cbv zeta. destruct (strict_eq_spec (IZR (now - t0) / 1000) 0) as [_|Hnz]; [lra|].
  assert (0 <= IZR (now - t0)) by (apply IZR_le; lia).
  assert (0 < IZR (now - t0) / 1000) by lra.
  apply Rmult_le_pos; [apply sqrt_pos|]. left. now apply Rinv_0_lt_compat.
Qed.

(** X13: when the times of the move events do not run backwards, every move
    event the tracker records carries a movement speed that is not negative;
    the first move after a reset carries the speed 0. *)
Theorem movementSpeed_nonneg (es : list DomEvent) (s : t) :
  isTracking s = true ->
  forward_in_time (lastMouseMoveTime s) es ->
  Forall (fun e => 0 <= ev_movementSpeed e) (moveEvents s) ->
  Forall (fun e => 0 <= ev_movementSpeed e) (moveEvents (run s es))
  /\ (forall cx cy now s0,
        moveEvents (on_mousemove cx cy now (fresh s0)) = [MoveEvent cx cy now 0]).
Proof.
  intros Htr Hfw Hs. split; [|reflexivity].
  revert s Htr Hfw Hs. induction es as [|e es IH]; intros s Htr Hfw Hs; [exact Hs|].
  change (run s (e :: es)) with (run (handle s e) es).
  assert (Htr' : isTracking (handle s e) = true) by now rewrite handle_isTracking.
  destruct e as [cx cy now | b cx cy now st rnd | b cx cy now | dx dy now];
    simpl in Hfw; apply IH; try exact Htr'.
  - simpl. unfold on_mousemove. rewrite Htr. simpl. exact (proj2 Hfw).
  - simpl. unfold on_mousemove, moveEvents. rewrite Htr. simpl.
    rewrite filter_app. apply Forall_app. split; [exact Hs|].
    simpl. constructor; [|constructor]. simpl.
    apply calculateMovementSpeed_nonneg. exact (proj1 Hfw).
  - simpl. unfold on_mousedown. rewrite Htr. simpl. exact Hfw.
  - simpl. unfold on_mousedown, moveEvents. rewrite Htr. simpl.
    rewrite filter_app. simpl. rewrite app_nil_r. exact Hs.
  - exact Hfw.
  - exact Hs.
  - simpl. unfold on_wheel. rewrite Htr. simpl. exact Hfw.
  - simpl. unfold on_wheel, moveEvents. rewrite Htr. simpl.
    rewrite filter_app. simpl. rewrite app_nil_r. exact Hs.
Qed.

Lemma movementSpeed_nonneg_witness :
  Forall (fun e => 0 <= ev_movementSpeed e)
         (moveEvents (run (fresh constructor) diagonal_drag)).
Proof.
  apply (movementSpeed_nonneg diagonal_drag (fresh constructor)).
  - reflexivity.
  - simpl. lia.
  - constructor.
Defined.

End FrequencyAndSpeed.

(** ** The stress history *)

Section HistoryFacts.
Import StressHistory.

(** The loop that removes the last child leaves the first five children. *)
Lemma remove_overflow_firstn (fuel : nat) (children : list Item) :
  (length children <= fuel + 5)%nat ->
  remove_overflow fuel children = firstn 5 children.
Proof.
  revert children. induction fuel as [|fuel IH]; intros children Hlen; simpl remove_overflow.
  - symmetry. apply firstn_all2. lia.
  - destruct (Nat.ltb_spec 5 (length children)) as [Hover|Hfits].
    + rewrite IH.
      * rewrite removelast_firstn_len, firstn_firstn. f_equal. lia.
      * rewrite removelast_firstn_len, length_firstn. lia.
    + symmetry. apply firstn_all2. lia.
Qed.

Lemma addToHistoryList_list (time : string) (level confidence : R) (s : t)
    (children : list Item) :
  historyList s = Some children ->
  historyList (addToHistoryList time level confidence s)
  = Some (firstn 5 ({| item_time := time; item_level := level;
                       item_percent := Js.Math_round (confidence * 100) |} :: children))
  /\ historyChart (addToHistoryList time level confidence s) = historyChart s.
Proof.
  intros H. unfold addToHistoryList. rewrite H. cbv zeta. split; [|reflexivity].
  unfold historyList at 1. f_equal. apply remove_overflow_firstn. lia.
Qed.

Lemma firstn_5_newest (item : Item) (shown : list Item) :
  firstn 5 (item :: firstn 5 (rev shown)) = firstn 5 (rev (shown ++ [item])).
Proof.
  rewrite rev_app_distr. simpl rev. simpl app.
  change (firstn 5 (item :: firstn 5 (rev shown)))
    with (item :: firstn 4 (firstn 5 (rev shown))).
  change (firstn 5 (item :: rev shown)) with (item :: firstn 4 (rev shown)).
  now rewrite firstn_firstn.
Qed.

(** What a run makes of the chart and the list when both exist. *)
Lemma run_history (cs : list Command) (s : t) (times : list string) (levels : list R)
    (shown : list Item) :
  length times = length levels ->
  historyChart s = Some {| labels := lastn 10 times; data := lastn 10 levels |} ->
  historyList s = Some (firstn 5 (rev shown)) ->
  historyChart (run s cs)
  = Some {| labels := lastn 10 (times ++ record_times cs);
            data := lastn 10 (levels ++ record_levels cs) |}
  /\ historyList (run s cs) = Some (firstn 5 (rev (entries_since_reset shown cs))).
Proof.
  revert s times levels shown.
  induction cs as [|c cs IH]; intros s times levels shown Hlen Hchart Hlist.
  - simpl. rewrite !app_nil_r. now split.
  - change (run s (c :: cs)) with (run (step s c) cs).
    destruct c as [time level confidence|].
    + change (record_times (Record_ time level confidence :: cs))
        with ([time] ++ record_times cs).
      change (record_levels (Record_ time level confidence :: cs))
        with ([level] ++ record_levels cs).
      rewrite !app_assoc. simpl entries_since_reset.
      apply IH.
      * rewrite !length_app. simpl. lia.
      * simpl step. unfold addStressRecord. rewrite Hchart. cbv zeta.
        match goal with
        | |- historyChart (addToHistoryList _ _ _ ?charted) = _ =>
            destruct (addToHistoryList_list time level confidence charted
                        (firstn 5 (rev shown)) Hlist) as [_ Hc]
        end.
        rewrite Hc. simpl historyChart. f_equal.
        rewrite (lastn_push 10 times time), (lastn_push 10 levels level) by lia.
        cbv zeta. simpl labels. simpl data.
        rewrite !length_app, !lastn_length, Hlen.
        change (length [time]) with 1%nat. change (length [level]) with 1%nat.
        destruct (10 <? Nat.min 10 (length levels) + 1)%nat; reflexivity.
      * simpl step. unfold addStressRecord. rewrite Hchart. cbv zeta.
        match goal with
        | |- historyList (addToHistoryList _ _ _ ?charted) = _ =>
            destruct (addToHistoryList_list time level confidence charted
                        (firstn 5 (rev shown)) Hlist) as [Hl _]
        end.
        rewrite Hl. f_equal. apply firstn_5_newest.
    + simpl record_times. simpl record_levels. simpl entries_since_reset.
      apply IH.
      * exact Hlen.
      * simpl step. unfold clearHistoryList. simpl. exact Hchart.
      * simpl step. unfold clearHistoryList. simpl. now rewrite Hlist.
Qed.

(** X14: after any predictions and resets, the history chart shows the last
    ten predictions ever recorded, oldest first, label and level side by
    side; the history list shows the five newest entries made since the
    last reset, newest first. A reset empties the list and leaves the chart
    as it is. *)
Theorem stress_history_windows (cs : list Command) :
  let s := run (constructor true true) cs in
  historyChart s
  = Some {| labels := lastn 10 (record_times cs); data := lastn 10 (record_levels cs) |}
  /\ historyList s = Some (firstn 5 (rev (entries_since_reset [] cs)))
  /\ historyChart (clearHistoryList s) = historyChart s
  /\ historyList (clearHistoryList s) = Some [].
Proof.
  cbv zeta.
  destruct (run_history cs (constructor true true) [] [] [] eq_refl eq_refl eq_refl)
    as [Hc Hl].
  simpl app in Hc. split; [exact Hc|]. split; [exact Hl|].
  split; [reflexivity|]. unfold clearHistoryList. simpl. now rewrite Hl.
Qed.

(** X15: a point of the heat map is drawn with an opacity that is never
    negative, is at most 1 for a point not from the future, and is 0 exactly
    when the point is 5000 ms old or older: the buffer may hold a thousand
    points, only those of the last five seconds are visible. *)
Theorem heat_point_opacity (now : Z) (point : StressVisualization.HeatPoint) :
  0 <= opacity now point /\
  ((StressVisualization.time point <= now)%Z -> opacity now point <= 1) /\
  (opacity now point = 0 <-> (5000 <= now - StressVisualization.time point)%Z).
Proof.
  unfold opacity, Js.Math_max. cbv zeta.
  set (age := (now - StressVisualization.time point)%Z).
  split; [apply Rmax_l|]. split.
  - intros Hle. assert (0 <= IZR age) by (apply IZR_le; unfold age; lia).
    apply Rmax_lub; lra.
  - split.
    + intros H0. apply le_IZR.
      pose proof (Rmax_r 0 (1 - IZR age / 5000)) as Hr. rewrite H0 in Hr. lra.
    + intros Hold. apply IZR_le in Hold. apply Rmax_left. lra.
Qed.

End HistoryFacts.

(** ** The life cycle of the application *)

Section LifeCycleFacts.
Import StressDetectionApp.

Lemma step_tracking_needs_monitoring (app : t) (i : Input) :
  tracking_needs_monitoring app -> tracking_needs_monitoring (step app i).
Proof.
  intros [Hk Hm]. unfold tracking_needs_monitoring.
  destruct i as [e | c now | b cx cy now rnd | b cx cy now | dx dy now
                 | now nowKb tk tm | | | checked nowKb | checked | level confidence];
    simpl.
  - rewrite handle_key_isTracking. now split.
  - change (MouseTracker.on_mousemove (StressVisualization.call_x c)
              (StressVisualization.call_y c) now (mouseTracker app))
      with (MouseTracker.handle (mouseTracker app)
              (MouseTracker.MouseMove (StressVisualization.call_x c)
                 (StressVisualization.call_y c) now)).
    rewrite handle_isTracking. now split.
  - change (MouseTracker.on_mousedown b cx cy now (currentStressLevel app) rnd
              (mouseTracker app))
      with (MouseTracker.handle (mouseTracker app)
              (MouseTracker.MouseDown b cx cy now (currentStressLevel app) rnd)).
    rewrite handle_isTracking. now split.
  - now split.
  - change (MouseTracker.on_wheel dx dy now (mouseTracker app))
      with (MouseTracker.handle (mouseTracker app) (MouseTracker.Wheel dx dy now)).
    rewrite handle_isTracking. now split.
  - unfold startMonitoring. destruct (isMonitoring app) eqn:E; simpl.
    + rewrite E. now split.
    + now split.
  - unfold pauseMonitoring. destruct (isMonitoring app) eqn:E; simpl.
    + split; discriminate.
    + rewrite E. now split.
  - split; discriminate.
  - unfold on_trackKeyboard_change.
    destruct checked; simpl; [destruct (isMonitoring app) eqn:E; simpl|].
    + rewrite E. now split.
    + rewrite E. now split.
    + split; [discriminate | exact Hm].
  - unfold on_trackMouse_change.
    destruct checked; simpl; [destruct (isMonitoring app) eqn:E; simpl|].
    + rewrite E. now split.
    + rewrite E. now split.
    + split; [exact Hk | discriminate].
  - now split.
Qed.

Lemma key_not_tracking (s : KeyboardTracker.t) (e : KeyboardTracker.DomEvent) :
  KeyboardTracker.isTracking s = false -> KeyboardTracker.handle s e = s.
Proof.
  intros H. destruct e; simpl;
    unfold KeyboardTracker.on_keydown, KeyboardTracker.on_keyup; now rewrite H.
Qed.

(** X16: in every state the application reaches, a tracker that is tracking
    implies that monitoring is active; so while monitoring is not active
    (before the first start, while paused, after a reset) no key or pointer
    event changes the state of the application in any way. *)
Theorem no_recording_without_monitoring (canvasFound chartFound listFound : bool) (inputs : list Input) :
  let app := run (constructor canvasFound chartFound listFound) inputs in
  tracking_needs_monitoring app /\
  (isMonitoring app = false ->
   forall i, user_event i = true -> step app i = app).
Proof.
  cbv zeta.
  assert (Hinv : tracking_needs_monitoring (run (constructor canvasFound chartFound listFound) inputs)).
  { apply (run_invariant tracking_needs_monitoring).
    - apply step_tracking_needs_monitoring.
    - split; discriminate. }
  split; [exact Hinv|].
  set (app := run (constructor canvasFound chartFound listFound) inputs) in *.
  intros Hidle i Hi. destruct Hinv as [Hk Hm].
  assert (Hkt : KeyboardTracker.isTracking (keyboardTracker app) = false).
  { destruct (KeyboardTracker.isTracking (keyboardTracker app)); [|reflexivity].
    rewrite Hk in Hidle by reflexivity. discriminate. }
  assert (Hmt : MouseTracker.isTracking (mouseTracker app) = false).
  { destruct (MouseTracker.isTracking (mouseTracker app)); [|reflexivity].
    rewrite Hm in Hidle by reflexivity. discriminate. }
  destruct i; simpl in Hi; try discriminate; simpl;
    unfold with_trackers, on_mousemove, MouseTracker.on_mousemove,
      MouseTracker.on_mousedown, MouseTracker.on_mouseup, MouseTracker.on_wheel;
    rewrite ?key_not_tracking by exact Hkt; rewrite ?Hmt; simpl;
    destruct app; reflexivity.
Qed.

Lemma clearHistoryList_twice (h : StressHistory.t) :
  StressHistory.clearHistoryList (StressHistory.clearHistoryList h)
  = StressHistory.clearHistoryList h.
Proof.
  unfold StressHistory.clearHistoryList. simpl.
  destruct (StressHistory.historyList h); reflexivity.
Qed.

(** X17: how the three buttons compose: pausing twice is pausing once,
    resetting twice is resetting once, a pause before or after a reset adds
    nothing to the reset, and a second start changes nothing. *)
Theorem buttons_compose (app : t) (now nowKb now' nowKb' : Z) (tk tm tk' tm' : bool) :
  pauseMonitoring (pauseMonitoring app) = pauseMonitoring app /\
  resetSession (resetSession app) = resetSession app /\
  resetSession (pauseMonitoring app) = resetSession app /\
  pauseMonitoring (resetSession app) = resetSession app /\
  startMonitoring now' nowKb' tk' tm' (startMonitoring now nowKb tk tm app)
  = startMonitoring now nowKb tk tm app.
Proof.
  unfold pauseMonitoring, resetSession, startMonitoring.
  destruct (isMonitoring app) eqn:E; simpl; rewrite ?E; simpl;
    rewrite ?clearHistoryList_twice; repeat split; reflexivity.
Qed.

(** X18: taking the tick out of a settings box and putting it back while
    monitoring is active restarts that tracker with an empty buffer and
    zeroed counters and leaves the other tracker alone; while monitoring is
    not active it leaves the tracker stopped with its data. *)
Theorem box_toggle_restarts_tracker (app : t) (nowKb : Z) :
  let mouse_toggled := on_trackMouse_change true (on_trackMouse_change false app) in
  let key_toggled :=
    on_trackKeyboard_change true nowKb (on_trackKeyboard_change false nowKb app) in
  (isMonitoring app = true ->
   mouseTracker mouse_toggled = MouseTracker.startTracking (mouseTracker app) /\
   keyboardTracker mouse_toggled = keyboardTracker app /\
   keyboardTracker key_toggled
   = KeyboardTracker.startTracking nowKb (keyboardTracker app) /\
   mouseTracker key_toggled = mouseTracker app /\
   session_data (on_trackKeyboard_change true nowKb mouse_toggled) = no_data) /\
  (isMonitoring app = false ->
   mouseTracker mouse_toggled = MouseTracker.stopTracking (mouseTracker app) /\
   keyboardTracker key_toggled = KeyboardTracker.stopTracking (keyboardTracker app) /\
   session_data mouse_toggled = session_data app /\
   session_data key_toggled = session_data app).
Proof.
  cbv zeta. unfold on_trackMouse_change, on_trackKeyboard_change, with_trackers.
  simpl. split; intros E; rewrite ?E; simpl; rewrite ?E; simpl; repeat split; reflexivity.
Qed.

Lemma box_toggle_restarts_tracker_witness :
  session_data
    (on_trackKeyboard_change true 9
       (on_trackMouse_change true
          (on_trackMouse_change false
             (run (constructor true true true)
                [ClickStart 0 0 true true;
                 Key (KeyboardTracker.KeyDown "a" "KeyA" 5);
                 Down 0 1 1 6 0.5]))))
  = no_data.
Proof.
  apply (proj1 (box_toggle_restarts_tracker
                  (run (constructor true true true)
                     [ClickStart 0 0 true true;
                      Key (KeyboardTracker.KeyDown "a" "KeyA" 5);
                      Down 0 1 1 6 0.5]) 9)).
  reflexivity.
Defined.

(** X19: nothing but a pointer move that reaches [updateVisualization]
    changes the heat map: its point buffer survives a pause, a start, a reset
    of the session, a change of a settings box, a prediction, and a move that
    is delivered while the socket is still connecting. *)
Theorem heat_points_survive_reset (app : t) (i : Input) :
  (forall c now, i <> Move c now false) ->
  visualization (step app i) = visualization app.
Proof.
  intros Hi. destruct i as [e | c now connecting | | | | | | | | |]; simpl;
    unfold startMonitoring, pauseMonitoring, on_trackKeyboard_change, on_trackMouse_change;
    repeat match goal with |- context [if ?b then _ else _] => destruct b eqn:? end;
    try reflexivity.
  destruct connecting; [|exfalso; eapply Hi; reflexivity].
  rewrite andb_false_r in *. discriminate.
Qed.

Lemma heat_points_survive_reset_witness :
  visualization (step (run (constructor true true true) long_session) ClickReset)
  = visualization (run (constructor true true true) long_session).
Proof.
  apply heat_points_survive_reset. intros c now. discriminate.
Defined.

(** X20: [startTracking] keeps the last position of the pointer, so after a
    pause and a new start the first move is charged with the whole way from
    where the pointer was last seen (unless that was the origin); after a
    reset and a new start the first move is charged with nothing. *)
Theorem resume_charges_the_jump (app : t) (c : StressVisualization.Call)
    (now n1 n2 : Z) (tk connecting : bool) :
  let seen := MouseTracker.lastMousePosition (mouseTracker app) in
  let here := {| MouseTracker.x := StressVisualization.call_x c;
                 MouseTracker.y := StressVisualization.call_y c |} in
  MouseTracker.totalDistance
    (mouseTracker (run app [ClickPause; ClickStart n1 n2 tk true; Move c now connecting]))
  = (if is_origin seen then 0 else dist seen here) /\
  MouseTracker.totalDistance
    (mouseTracker (run app [ClickReset; ClickStart n1 n2 tk true; Move c now connecting]))
  = 0.
Proof.
  cbv zeta.
  assert (Hpause : mouseTracker (run app [ClickPause; ClickStart n1 n2 tk true; Move c now connecting])
                   = MouseTracker.on_mousemove (StressVisualization.call_x c)
                       (StressVisualization.call_y c) now
                       (MouseTracker.startTracking (mouseTracker app))).
  { simpl. unfold pauseMonitoring, startMonitoring.
    destruct (isMonitoring app) eqn:E; simpl; rewrite ?E; reflexivity. }
  assert (Hreset : mouseTracker (run app [ClickReset; ClickStart n1 n2 tk true; Move c now connecting])
                   = MouseTracker.on_mousemove (StressVisualization.call_x c)
                       (StressVisualization.call_y c) now (fresh (mouseTracker app))).
  { reflexivity. }
  rewrite Hpause, Hreset. split.
  - destruct (on_mousemove_totalDistance (MouseTracker.startTracking (mouseTracker app))
                (StressVisualization.call_x c) (StressVisualization.call_y c) now eq_refl)
      as [H _].
    rewrite H. simpl. lra.
  - destruct (on_mousemove_totalDistance (fresh (mouseTracker app))
                (StressVisualization.call_x c) (StressVisualization.call_y c) now eq_refl)
      as [H _].
    rewrite H. simpl. rewrite is_origin_zero. lra.
Qed.

End LifeCycleFacts.
